(** * Mambo: a MySQL -> StatsD collector

    Shallow embedding of the two programs of the repository: [mambo.go]
    at its root (module [Mambo]) and the older near-duplicate one
    directory below, [src/mambo.go] (module [MamboSrc]); together with
    the parts of the Go runtime and of the libraries they call that
    decide their behaviour, and the properties of the specification
    settled on them.

    Conventions.
    - A Go [string] is a sequence of bytes: [string] of [Stdlib.Strings].
    - Go's [int] and [int64] are 64-bit; they are carried in [Z] and the
      places where wrap-around can happen are written out.
    - A function with effects is a value of [Go A]: the way it ends
      (normal return, run-time panic, [os.Exit]) and the trace of the
      effects it performed, oldest first.
    - What the outside world answers (the data base, the StatsD client,
      the file system) is a parameter of the function concerned. *)

From Stdlib Require Import ZArith String Ascii List Bool Lia QArith.
Import ListNotations.

#[local] Open Scope string_scope.
#[local] Open Scope Z_scope.

(** ** Go runtime: errors, effects, control *)

(** [strconv.NumError.Err] is one of two sentinels. *)
Inductive NumErrKind := ErrSyntax | ErrRange.

(** Values of the interface type [error]: the [*strconv.NumError] built by
    the conversions below, or an error reported by an external
    collaborator, known by its message only. *)
Inductive error :=
| NumError (Func Num : string) (Err : NumErrKind)
| ExtError (msg : string).

Definition dquote : string := String (ascii_of_nat 34) "".

(** [err.Error()].  For a [NumError] Go prints
    [strconv.Func: parsing "Num": reason] (the escaping done by
    [strconv.Quote] inside [Num] is not modelled). *)
Definition Error (e : error) : string :=
  match e with
  | NumError f n k =>
      "strconv." ++ f ++ ": parsing " ++ dquote ++ n ++ dquote ++ ": " ++
      match k with
      | ErrSyntax => "invalid syntax"
      | ErrRange => "value out of range"
      end
  | ExtError m => m
  end.

Inductive Level := NOTICE | INFO | ERROR | CRITICAL.

(** The observable effects of the program, in the order they happen. *)
Inductive Event :=
| Log (lvl : Level) (msg : string)            (* logger.Notice/Info/Error/Critical *)
| Send (msg : string)                         (* results <- msg *)
| Spawn (key query : string) (freq : Z)       (* go controller(command, ...) *)
| SinkInc (stat : string) (value : Z) (rate : Q)  (* client.Inc(stat, value, rate) *)
| SinkClose                                   (* client.Close() *)
| DbClose                                     (* db.Close() *)
| StmtClose.                                  (* stmtOut.Close() *)

(** How a call ends. *)
Inductive Outcome (A : Type) :=
| Return (a : A)
| Panic (msg : string)
| Exit (code : Z).
Arguments Return {A} a.
Arguments Panic {A} msg.
Arguments Exit {A} code.

Definition Go (A : Type) : Type := (Outcome A * list Event)%type.

Definition ret {A} (a : A) : Go A := (Return a, []).

Definition bind {A B} (m : Go A) (f : A -> Go B) : Go B :=
  match m with
  | (Return a, t) => let '(o, t') := f a in (o, (t ++ t')%list)
  | (Panic p, t) => (Panic p, t)
  | (Exit c, t) => (Exit c, t)
  end.

Declare Scope go_scope.
Delimit Scope go_scope with go.
Notation "x <- m ;; k" := (bind m (fun x => k))
  (at level 61, m at next level, right associativity) : go_scope.
Notation "m ;; k" := (bind m (fun _ => k))
  (at level 61, right associativity) : go_scope.
Notation "' pat <- m ;; k" := (bind m (fun x => match x with pat => k end))
  (at level 61, pat pattern, m at next level, right associativity) : go_scope.
#[local] Open Scope go_scope.

Definition emit (e : Event) : Go unit := (Return tt, [e]).
Definition panic {A} (msg : string) : Go A := (Panic msg, []).
Definition os_Exit {A} (code : Z) : Go A := (Exit code, []).

Definition nil_deref : string :=
  "runtime error: invalid memory address or nil pointer dereference".

(** [if err != nil { logger.Error(err.Error()) }]: the check every fallible
    step of the program is followed by.  Nothing else happens: control
    goes on to the next statement.  (The logger takes the text as a
    format; the trace keeps the text as it is handed over.) *)
Definition log_if_err (err : option error) : Go unit :=
  match err with
  | Some e => emit (Log ERROR (Error e))
  | None => ret tt
  end.

(** [defer d; body]: [d] runs when the function returns or panics; a panic
    of [d] replaces the outcome.  [os.Exit] runs no deferred call. *)
Definition defer {A} (d : Go unit) (body : Go A) : Go A :=
  match body with
  | (Exit c, t) => (Exit c, t)
  | (o, t) =>
      match d with
      | (Return _, td) => (o, (t ++ td)%list)
      | (Panic p, td) => (Panic p, (t ++ td)%list)
      | (Exit c, td) => (Exit c, (t ++ td)%list)
      end
  end.

(** [a[i]] on a slice: a run-time panic when out of range (the message
    of the runtime goes on with the index and the length, which are not
    kept here). *)
Definition index (a : list string) (i : nat) : Go string :=
  match nth_error a i with
  | Some x => ret x
  | None => panic "runtime error: index out of range"
  end.

(** ** strconv *)

Module strconv.

Definition digit (d : Z) : ascii := ascii_of_nat (48 + Z.to_nat d).

Definition byte (c : ascii) : Z := Z.of_nat (nat_of_ascii c).

(** [formatBits] for base 10: the digits of [u], least significant
    first, are put in front of what is already written.  A [uint64] has
    at most 20 decimal digits. *)
Fixpoint formatBits (n : nat) (u : Z) (acc : string) : string :=
  match n with
  | O => acc
  | S n' =>
      if u <? 10 then String (digit u) acc
      else formatBits n' (u / 10) (String (digit (u mod 10)) acc)
  end.

(** [FormatInt(i, 10)], which is also how [fmt] prints an [int] under
    [%v]. *)
Definition FormatInt (i : Z) : string :=
  if i <? 0 then String "-" (formatBits 20 (- i) "")
  else formatBits 20 i "".

Definition maxUint64 : Z := 2 ^ 64 - 1.

Inductive uresult := UOk (n : Z) | USyntax | URange.

(** The loop of [ParseUint(s, 10, 64)].  In base 10 a byte that is not
    a decimal digit is a syntax error (a letter is a digit of value at
    least 10, an underscore is accepted in base 0 only).  An overflow is
    reported as soon as it happens, before the bytes after it are
    looked at. *)
Fixpoint parseLoop (s : string) (n : Z) : uresult :=
  match s with
  | EmptyString => UOk n
  | String c s' =>
      if (48 <=? byte c) && (byte c <=? 57) then
        let d := byte c - 48 in
        if n >=? maxUint64 / 10 + 1 then URange
        else
          let n := n * 10 in
          let n1 := (n + d) mod 2 ^ 64 in
          if (n1 <? n) || (n1 >? maxUint64) then URange
          else parseLoop s' n1
      else USyntax
  end.

Definition ParseUint (s : string) : uresult :=
  match s with
  | EmptyString => USyntax
  | _ => parseLoop s 0
  end.

(** [ParseInt(s, 10, 64)]: value and error.  The value is 0 on a syntax
    error and the nearest bound on a range error. *)
Definition ParseInt (s : string) : Z * option error :=
  match s with
  | EmptyString => (0, Some (NumError "ParseInt" s ErrSyntax))
  | String c s' =>
      let neg := Ascii.eqb c "-" in
      let s1 := if Ascii.eqb c "+" then s' else if neg then s' else s in
      let cutoff := 2 ^ 63 in
      match ParseUint s1 with
      | USyntax => (0, Some (NumError "ParseInt" s ErrSyntax))
      | r =>
          let un := match r with UOk n => n | _ => maxUint64 end in
          if negb neg && (un >=? cutoff) then
            (cutoff - 1, Some (NumError "ParseInt" s ErrRange))
          else if neg && (un >? cutoff) then
            (- cutoff, Some (NumError "ParseInt" s ErrRange))
          else (if neg then - un else un, None)
      end
  end.

(** [lower(c)]: the byte with its case bit set. *)
Definition lower (b : Z) : Z := Z.lor b 32.

(** What [underscoreOK] last saw: the beginning of the number, a digit
    (or the base prefix), an underscore, or something else. *)
Inductive seen := SawStart | SawDigit | SawUnderscore | SawOther.

(** The loop of [underscoreOK]: an underscore must follow a digit and be
    followed by one. *)
Fixpoint underscoreLoop (hex : bool) (saw : seen) (s : string) : bool :=
  match s with
  | EmptyString => match saw with SawUnderscore => false | _ => true end
  | String c s' =>
      let b := byte c in
      if ((48 <=? b) && (b <=? 57)) ||
         (hex && (97 <=? lower b) && (lower b <=? 102))
      then underscoreLoop hex SawDigit s'
      else if b =? 95 then
        match saw with
        | SawDigit => underscoreLoop hex SawUnderscore s'
        | _ => false
        end
      else
        match saw with
        | SawUnderscore => false
        | _ => underscoreLoop hex SawOther s'
        end
  end.

(** [underscoreOK(s)]: after an optional sign and an optional base
    prefix, which counts as a digit. *)
Definition underscoreOK (s : string) : bool :=
  let s := match s with
           | String c s' =>
               if Ascii.eqb c "-" || Ascii.eqb c "+" then s' else s
           | EmptyString => s
           end in
  match s with
  | String c0 (String c1 s') =>
      if (byte c0 =? 48) &&
         ((lower (byte c1) =? 98) || (lower (byte c1) =? 111) ||
          (lower (byte c1) =? 120))
      then underscoreLoop (lower (byte c1) =? 120) SawDigit s'
      else underscoreLoop false SawStart s
  | _ => underscoreLoop false SawStart s
  end.

(** The loop of [ParseUint(s0, 0, 64)] once the base is known: [s] is
    what is left to read of [s0].  An underscore is skipped and
    remembered; a digit or a letter has its value, which must be below
    the base; overflow is reported as soon as it happens; the
    underscores are checked at the end. *)
Fixpoint parseLoop0 (base : Z) (s0 s : string) (n : Z) (underscores : bool)
  : uresult :=
  match s with
  | EmptyString =>
      if underscores && negb (underscoreOK s0) then USyntax else UOk n
  | String c s' =>
      let b := byte c in
      if b =? 95 then parseLoop0 base s0 s' n true
      else
        let d := if (48 <=? b) && (b <=? 57) then Some (b - 48)
                 else if (97 <=? lower b) && (lower b <=? 122)
                      then Some (lower b - 97 + 10)
                      else None in
        match d with
        | None => USyntax
        | Some d =>
            if d >=? base then USyntax
            else if n >=? maxUint64 / base + 1 then URange
            else
              let n := n * base in
              let n1 := (n + d) mod 2 ^ 64 in
              if (n1 <? n) || (n1 >? maxUint64) then URange
              else parseLoop0 base s0 s' n1 underscores
        end
  end.

(** [ParseUint(s, 0, 64)]: base 10, unless the text starts with [0]:
    then base 2, 8 or 16 after [0b], [0o] or [0x] when something
    follows the prefix, base 8 after the [0] otherwise. *)
Definition ParseUint0 (s : string) : uresult :=
  match s with
  | EmptyString => USyntax
  | String c0 rest =>
      if byte c0 =? 48 then
        match rest with
        | String c1 (String c2 rest') =>
            if lower (byte c1) =? 98 then parseLoop0 2 s (String c2 rest') 0 false
            else if lower (byte c1) =? 111 then parseLoop0 8 s (String c2 rest') 0 false
            else if lower (byte c1) =? 120 then parseLoop0 16 s (String c2 rest') 0 false
            else parseLoop0 8 s rest 0 false
        | _ => parseLoop0 8 s rest 0 false
        end
      else parseLoop0 10 s s 0 false
  end.

(** [ParseInt(s, 0, 64)]: as [ParseInt(s, 10, 64)] above, the base taken
    from the text. *)
Definition ParseInt0 (s : string) : Z * option error :=
  match s with
  | EmptyString => (0, Some (NumError "ParseInt" s ErrSyntax))
  | String c s' =>
      let neg := Ascii.eqb c "-" in
      let s1 := if Ascii.eqb c "+" then s' else if neg then s' else s in
      let cutoff := 2 ^ 63 in
      match ParseUint0 s1 with
      | USyntax => (0, Some (NumError "ParseInt" s ErrSyntax))
      | r =>
          let un := match r with UOk n => n | _ => maxUint64 end in
          if negb neg && (un >=? cutoff) then
            (cutoff - 1, Some (NumError "ParseInt" s ErrRange))
          else if neg && (un >? cutoff) then
            (- cutoff, Some (NumError "ParseInt" s ErrRange))
          else (if neg then - un else un, None)
      end
  end.

End strconv.

(** ** strings *)

Module strings.

(** [strings.Split(s, sep)] for a separator of one byte: the pieces of
    [s] between the occurrences of [sep], all of them; [s] alone when
    [sep] does not occur. *)
Fixpoint Split (s : string) (sep : ascii) : list string :=
  match s with
  | EmptyString => [EmptyString]
  | String c s' =>
      if Ascii.eqb c sep then EmptyString :: Split s' sep
      else
        match Split s' sep with
        | piece :: rest => String c piece :: rest
        | [] => [String c EmptyString]
        end
  end.

End strings.

(** ** fmt *)

Module fmt.

(** The operands the program hands to [fmt.Sprint]: strings and ints. *)
Inductive arg := Str (s : string) | Int (i : Z).

Definition isString (a : arg) : bool :=
  match a with Str _ => true | Int _ => false end.

Definition printArg (a : arg) : string :=
  match a with Str s => s | Int i => strconv.FormatInt i end.

(** [doPrint]: the operands under [%v], with a space between two
    operands when neither is a string. *)
Fixpoint doPrint (first prevString : bool) (a : list arg) : string :=
  match a with
  | [] => ""
  | x :: a' =>
      (if negb first && negb (isString x) && negb prevString
       then " " else "")
      ++ printArg x ++ doPrint false (isString x) a'
  end.

Definition Sprint (a : list arg) : string := doPrint true false a.

End fmt.

(** ** gopkg.in/ini.v1, as far as [configure] uses it *)

Module ini.

(** One section of a loaded file, as the library presents it to its
    caller: its name and, for every key the library finds for it, the
    text [Key(k).String()] returns.  The library finds a key in the
    section itself or, for a child section [a.b], in its parent
    sections; the text is the value of the key with its [%(name)s]
    references already expanded.  How the library comes to these
    answers from the bytes of the file is not modelled. *)
Record IniSection := {
  Name : string;
  keys : list (string * string)
}.

(** A loaded file is what [File.Sections()] returns: its sections in
    file order (the library puts the unnamed section first, under the
    name [DEFAULT]). *)
Definition File := list IniSection.

Fixpoint lookup (k : string) (l : list (string * string)) : option string :=
  match l with
  | [] => None
  | (k', v) :: l' => if String.eqb k' k then Some v else lookup k l'
  end.

(** [section.Key(name)]: the key the library finds under that name, or
    a key of empty value when it finds none. *)
Record KeyT := { value : string }.

Definition Key (s : IniSection) (name : string) : KeyT :=
  match lookup name (keys s) with
  | Some v => {| value := v |}
  | None => {| value := "" |}
  end.

(** [key.String()]. *)
Definition String_ (k : KeyT) : string := value k.

(** [key.Int()]: [strconv.ParseInt(k.String(), 0, 64)], as an [int] and
    an error. *)
Definition Int (k : KeyT) : Z * option error := strconv.ParseInt0 (value k).

End ini.

(** ** The outside world *)

(** What [database/sql] answers during one call of [mysqlWorker].  A
    constructor of the library that fails returns a nil handle with its
    error; calling a method through a nil handle is a nil-pointer
    dereference. *)
Record SqlWorld := {
  sql_Open : string -> string -> option error;   (* driver, data source name *)
  db_Ping : option error;
  db_Prepare : string -> option error;           (* query *)
  row_Scan : string -> string + error            (* query: the scalar, or an error *)
}.

(** What the StatsD client answers during one call of [statsdSender]. *)
Record StatsdWorld := {
  statsd_NewClient : string -> string -> option error;   (* address, prefix *)
  client_Inc : string -> Z -> Q -> option error
}.

(** What [ini.Load] finds at a path. *)
Definition FileSystem := string -> ini.File + error.

(** The handles of the libraries; a nil handle is [None]. *)
Inductive DB := DBHandle (dsn : string).
Inductive Stmt := StmtHandle (query : string).
Inductive Statter := ClientHandle (addr : string).

(** [sql.Open]: a handle, or nil with the error. *)
Definition sql_open (w : SqlWorld) (driver dsn : string) : option DB * option error :=
  match sql_Open w driver dsn with
  | None => (Some (DBHandle dsn), None)
  | Some e => (None, Some e)
  end.

Definition DB_Close (db : option DB) : Go unit :=
  match db with
  | Some _ => emit DbClose
  | None => panic nil_deref
  end.

Definition DB_Ping (w : SqlWorld) (db : option DB) : Go (option error) :=
  match db with
  | Some _ => ret (db_Ping w)
  | None => panic nil_deref
  end.

Definition DB_Prepare (w : SqlWorld) (db : option DB) (query : string)
  : Go (option Stmt * option error) :=
  match db with
  | Some _ =>
      match db_Prepare w query with
      | None => ret (Some (StmtHandle query), None)
      | Some e => ret (None, Some e)
      end
  | None => panic nil_deref
  end.

Definition Stmt_Close (st : option Stmt) : Go unit :=
  match st with
  | Some _ => emit StmtClose
  | None => panic nil_deref
  end.

(** [stmtOut.QueryRow().Scan(&result)]: on success the scalar is stored in
    [result]; on failure [result] keeps the value it had. *)
Definition Stmt_QueryRow_Scan (w : SqlWorld) (st : option Stmt) (result : string)
  : Go (string * option error) :=
  match st with
  | Some (StmtHandle q) =>
      match row_Scan w q with
      | inl v => ret (v, None)
      | inr e => ret (result, Some e)
      end
  | None => panic nil_deref
  end.

Definition statsd_newClient (w : StatsdWorld) (addr prefix : string)
  : option Statter * option error :=
  match statsd_NewClient w addr prefix with
  | None => (Some (ClientHandle addr), None)
  | Some e => (None, Some e)
  end.

Definition Client_Close (c : option Statter) : Go unit :=
  match c with
  | Some _ => emit SinkClose
  | None => panic nil_deref
  end.

Definition Client_Inc (w : StatsdWorld) (c : option Statter)
  (stat : string) (value : Z) (rate : Q) : Go (option error) :=
  match c with
  | Some _ => emit (SinkInc stat value rate) ;; ret (client_Inc w stat value rate)
  | None => panic nil_deref
  end.

(** [time.NewTicker(time.Millisecond * time.Duration(freq))]: the product
    is an [int64] of nanoseconds; a duration that is not positive
    panics. *)
Definition int64 (z : Z) : Z := (z + 2 ^ 63) mod 2 ^ 64 - 2 ^ 63.

Definition time_NewTicker (freq : Z) : Go unit :=
  if int64 (1000000 * freq) <=? 0
  then panic "non-positive interval for NewTicker"
  else ret tt.

(** [for _, x := range l { f(x) }] for a body with effects. *)
Fixpoint forEach {A} (l : list A) (f : A -> Go unit) : Go unit :=
  match l with
  | [] => ret tt
  | x :: l' => f x ;; forEach l' f
  end.

(** [defer client.M()] where [client] has an interface type: the method
    value is evaluated when the [defer] statement runs, so a nil
    interface panics there, before the rest of the function. *)
Definition defer_iface {A} (recv : option Statter) (d : Go unit) (body : Go A) : Go A :=
  match recv with
  | Some _ => defer d body
  | None => panic nil_deref
  end.

(** ** mambo.go *)

Module Mambo.

Import fmt.

Record configuration := {
  mysqlHost : string;
  mysqlUser : string;
  mysqlPass : string;
  mysqlDb : string;
  mysqlPort : Z;
  statsdHost : string;
  statsdPort : Z
}.

Record command := {
  key : string;
  query : string;
  freq : Z
}.

Definition statsdURIBuilder (config : configuration) : string :=
  Sprint [Str (statsdHost config); Str ":"; Int (statsdPort config)].

Definition statsdSender (w : StatsdWorld) (config : configuration) (msg : string)
  : Go unit :=
  let '(client, err) := statsd_newClient w (statsdURIBuilder config) "" in
  log_if_err err ;;
  defer_iface client (Client_Close client) (
    let arr := strings.Split msg ":" in
    key <- index arr 0 ;;
    arr1 <- index arr 1 ;;
    let '(value, err) := strconv.ParseInt arr1 in
    log_if_err err ;;
    err <- Client_Inc w client key value 1%Q ;;
    log_if_err err).

Definition mysqlURIBuilder (config : configuration) : string :=
  if String.eqb (mysqlHost config) "" then
    Sprint [Str (mysqlUser config); Str ":"; Str (mysqlPass config);
            Str "@"; Str "/"; Str (mysqlDb config)]
  else
    Sprint [Str (mysqlUser config); Str ":"; Str (mysqlPass config);
            Str "@"; Str (mysqlHost config); Str ":";
            Int (mysqlPort config); Str "/"; Str (mysqlDb config)].

Definition mysqlWorker (w : SqlWorld) (config : configuration) (cmd : command)
  : Go unit :=
  let result := "" in
  let connecturi := mysqlURIBuilder config in
  let '(db, err) := sql_open w "mysql" connecturi in
  log_if_err err ;;
  defer (DB_Close db) (
    err <- DB_Ping w db ;;
    log_if_err err ;;
    '(stmtOut, err) <- DB_Prepare w db (query cmd) ;;
    log_if_err err ;;
    defer (Stmt_Close stmtOut) (
      '(result, err) <- Stmt_QueryRow_Scan w stmtOut result ;;
      log_if_err err ;;
      let res := Sprint [Str (key cmd); Str ":"; Str result] in
      emit (Send res))).

(** [controller], for the ticks given: one world per tick. *)
Definition controller (cmd : command) (cnf : configuration) (ticks : list SqlWorld)
  : Go unit :=
  emit (Log NOTICE ("Query loaded: " ++ query cmd)) ;;
  time_NewTicker (freq cmd) ;;
  forEach ticks (fun w => mysqlWorker w cnf cmd).

Definition zero_configuration : configuration :=
  {| mysqlHost := ""; mysqlUser := ""; mysqlPass := ""; mysqlDb := "";
     mysqlPort := 0; statsdHost := ""; statsdPort := 0 |}.

(** The body of the loop over the sections; the state of the loop is
    [cfg] and [commands].  ([mysqlPortc], [statsdPortc] and [err] are
    declared outside the loop but assigned before every use.) *)
Definition configure_section (st : configuration * list command)
  (section : ini.IniSection) : configuration * list command :=
  let '(cfg, commands) := st in
  if negb (String.eqb (ini.Name section) "DEFAULT") then
    if String.eqb (ini.Name section) "config" then
      let mysqlHostc := ini.String_ (ini.Key section "mysql_host") in
      let mysqlUserc := ini.String_ (ini.Key section "mysql_user") in
      let mysqlPassc := ini.String_ (ini.Key section "mysql_pass") in
      let mysqlDbc := ini.String_ (ini.Key section "mysql_db") in
      let '(mysqlPortc, err) := ini.Int (ini.Key section "mysql_port") in
      let mysqlPortc := if mysqlPortc =? 0 then 3306 else mysqlPortc in
      let statsdHostc := ini.String_ (ini.Key section "statsd_host") in
      let '(statsdPortc, err) := ini.Int (ini.Key section "stats_port") in
      let statsdPortc := if statsdPortc =? 0 then 8125 else statsdPortc in
      ({| mysqlHost := mysqlHostc; mysqlUser := mysqlUserc;
          mysqlPass := mysqlPassc; mysqlPort := mysqlPortc;
          mysqlDb := mysqlDbc; statsdHost := statsdHostc;
          statsdPort := statsdPortc |}, commands)
    else
      let keyc := ini.String_ (ini.Key section "key") in
      let queryc := ini.String_ (ini.Key section "query") in
      let '(freqc, _) := ini.Int (ini.Key section "freq") in
      let cmd := {| key := keyc; query := queryc; freq := freqc |} in
      (cfg, (commands ++ [cmd])%list)
  else st.

Definition configure (fs : FileSystem) (cfgfile : string)
  : Go (configuration * list command) :=
  match fs cfgfile with
  | inr err =>
      emit (Log CRITICAL (Error err)) ;;
      os_Exit 1
  | inl config =>
      ret (fold_left configure_section config (zero_configuration, []))
  end.

(** [main]: [cfg] is the value of the [-cfg] flag, [incoming] the
    messages that arrive on [results], in order, each with the world
    the dispatcher meets when it handles it.  The loop never returns:
    [Return] here means that it waits for the next message. *)
Definition main (fs : FileSystem) (cfg : string)
  (incoming : list (StatsdWorld * string)) : Go unit :=
  let configfile := cfg in
  emit (Log NOTICE "Mambo collector started") ;;
  emit (Log NOTICE ("Loading configuration from " ++ configfile)) ;;
  '(config, commands) <- configure fs configfile ;;
  forEach commands (fun command =>
    emit (Spawn (key command) (query command) (freq command))) ;;
  emit (Log NOTICE "Data collector running") ;;
  forEach incoming (fun '(w, msg) => statsdSender w config msg).

End Mambo.

(** ** src/mambo.go, the older near-duplicate *)

Module MamboSrc.

Import fmt.

Record configuration := {
  mysql_host : string;
  mysql_user : string;
  mysql_pass : string;
  mysql_db : string;
  mysql_port : Z;
  statsd_host : string;
  statsd_port : Z
}.

Record command := {
  key : string;
  query : string;
  freq : Z
}.

Definition statsdUriBuilder (config : configuration) : string :=
  Sprint [Str (statsd_host config); Str ":"; Int (statsd_port config)].

(** As in [mambo.go], but the message is logged before the call and the
    error of [client.Inc] is dropped. *)
Definition statsdSender (w : StatsdWorld) (config : configuration) (msg : string)
  : Go unit :=
  let '(client, err) := statsd_newClient w (statsdUriBuilder config) "" in
  log_if_err err ;;
  defer_iface client (Client_Close client) (
    let arr := strings.Split msg ":" in
    key <- index arr 0 ;;
    arr1 <- index arr 1 ;;
    let '(value, err) := strconv.ParseInt arr1 in
    log_if_err err ;;
    emit (Log INFO ("Statsd data flushed: " ++ msg)) ;;
    _ <- Client_Inc w client key value 1%Q ;;
    ret tt).

Definition mysqlUriBuilder (config : configuration) : string :=
  if String.eqb (mysql_host config) "" then
    Sprint [Str (mysql_user config); Str ":"; Str (mysql_pass config);
            Str "@"; Str "/"; Str (mysql_db config)]
  else
    Sprint [Str (mysql_user config); Str ":"; Str (mysql_pass config);
            Str "@"; Str (mysql_host config); Str ":";
            Int (mysql_port config); Str "/"; Str (mysql_db config)].

Definition mysqlWorker (w : SqlWorld) (config : configuration) (cmd : command)
  : Go unit :=
  let result := "" in
  let connecturi := mysqlUriBuilder config in
  let '(db, err) := sql_open w "mysql" connecturi in
  log_if_err err ;;
  defer (DB_Close db) (
    err <- DB_Ping w db ;;
    log_if_err err ;;
    '(stmtOut, err) <- DB_Prepare w db (query cmd) ;;
    log_if_err err ;;
    defer (Stmt_Close stmtOut) (
      '(result, err) <- Stmt_QueryRow_Scan w stmtOut result ;;
      log_if_err err ;;
      let res := Sprint [Str (key cmd); Str ":"; Str result] in
      emit (Log INFO ("Data recieved from MySQL server: " ++ res)) ;;
      emit (Send res))).

Definition controller (cmd : command) (cnf : configuration) (ticks : list SqlWorld)
  : Go unit :=
  emit (Log NOTICE ("Query loaded: " ++ query cmd)) ;;
  time_NewTicker (freq cmd) ;;
  forEach ticks (fun w => mysqlWorker w cnf cmd).

Definition zero_configuration : configuration :=
  {| mysql_host := ""; mysql_user := ""; mysql_pass := ""; mysql_db := "";
     mysql_port := 0; statsd_host := ""; statsd_port := 0 |}.

Definition configure_section (st : configuration * list command)
  (section : ini.IniSection) : configuration * list command :=
  let '(cfg, commands) := st in
  if negb (String.eqb (ini.Name section) "DEFAULT") then
    if String.eqb (ini.Name section) "config" then
      let mysql_hostc := ini.String_ (ini.Key section "mysql_host") in
      let mysql_userc := ini.String_ (ini.Key section "mysql_user") in
      let mysql_passc := ini.String_ (ini.Key section "mysql_pass") in
      let mysql_dbc := ini.String_ (ini.Key section "mysql_db") in
      let '(mysql_portc, err) := ini.Int (ini.Key section "mysql_port") in
      let mysql_portc := if mysql_portc =? 0 then 3306 else mysql_portc in
      let statsd_hostc := ini.String_ (ini.Key section "statsd_host") in
      let '(statsd_portc, err) := ini.Int (ini.Key section "statsd_port") in
      let statsd_portc := if statsd_portc =? 0 then 8125 else statsd_portc in
      ({| mysql_host := mysql_hostc; mysql_user := mysql_userc;
          mysql_pass := mysql_passc; mysql_port := mysql_portc;
          mysql_db := mysql_dbc; statsd_host := statsd_hostc;
          statsd_port := statsd_portc |}, commands)
    else
      let keyc := ini.String_ (ini.Key section "key") in
      let queryc := ini.String_ (ini.Key section "query") in
      let '(freqc, _) := ini.Int (ini.Key section "freq") in
      let cmd := {| key := keyc; query := queryc; freq := freqc |} in
      (cfg, (commands ++ [cmd])%list)
  else st.

Definition configure (fs : FileSystem) (cfgfile : string)
  : Go (configuration * list command) :=
  match fs cfgfile with
  | inr err =>
      emit (Log CRITICAL (Error err)) ;;
      os_Exit 1
  | inl config =>
      ret (fold_left configure_section config (zero_configuration, []))
  end.

Definition main (fs : FileSystem) (cfg : string)
  (incoming : list (StatsdWorld * string)) : Go unit :=
  let configfile := cfg in
  emit (Log NOTICE "Mambo collector started") ;;
  emit (Log NOTICE ("Loading configuration from " ++ configfile)) ;;
  '(config, commands) <- configure fs configfile ;;
  forEach commands (fun command =>
    emit (Spawn (key command) (query command) (freq command))) ;;
  emit (Log NOTICE "Data collector running") ;;
  forEach incoming (fun '(w, msg) => statsdSender w config msg).

End MamboSrc.

(** ** The example of the README, and worlds to run the program in *)

Definition readme_config : ini.IniSection :=
  {| ini.Name := "config";
     ini.keys := [("mysql_user", "root"); ("mysql_pass", "root123");
                  ("mysql_db", "information_schema");
                  ("statsd_host", "127.0.0.1"); ("statsd_port", "8125")] |}.

Definition readme_query (n k q f : string) : ini.IniSection :=
  {| ini.Name := n; ini.keys := [("key", k); ("query", q); ("freq", f)] |}.

Definition readme_cfg : ini.File :=
  [ {| ini.Name := "DEFAULT"; ini.keys := [] |};
    readme_config;
    readme_query "query1" "mysql.server.query1" "SELECT 1" "1000";
    readme_query "query2" "mysql.server.query2" "SELECT 2" "500";
    readme_query "query3" "mysql.server.query3" "SELECT 3" "3000" ].

(** A file system holding the file [f] at [path] and nothing else. *)
Definition fs_with (path : string) (f : ini.File) : FileSystem :=
  fun p => if String.eqb p path then inl f
           else inr (ExtError ("open " ++ p ++ ": no such file or directory")).

Definition fs_empty : FileSystem :=
  fun p => inr (ExtError ("open " ++ p ++ ": no such file or directory")).

(** A data base that answers every query with the text [v]. *)
Definition sql_ok (v : string) : SqlWorld :=
  {| sql_Open := fun _ _ => None; db_Ping := None;
     db_Prepare := fun _ => None; row_Scan := fun _ => inl v |}.

(** A data base whose query yields no row: [Scan] fails. *)
Definition sql_no_rows : SqlWorld :=
  {| sql_Open := fun _ _ => None; db_Ping := None;
     db_Prepare := fun _ => None;
     row_Scan := fun _ => inr (ExtError "sql: no rows in result set") |}.

(** A StatsD sink that accepts everything. *)
Definition statsd_ok : StatsdWorld :=
  {| statsd_NewClient := fun _ _ => None; client_Inc := fun _ _ _ => None |}.

(** A StatsD sink whose address cannot be resolved. *)
Definition statsd_unreachable : StatsdWorld :=
  {| statsd_NewClient := fun _ _ => Some (ExtError "lookup statsd: no such host");
     client_Inc := fun _ _ _ => None |}.

(** ** Vocabulary of the properties *)

(** The byte [c] occurs in [s]. *)
Fixpoint occurs (c : ascii) (s : string) : bool :=
  match s with
  | EmptyString => false
  | String a s' => Ascii.eqb a c || occurs c s'
  end.

(** The message [mysqlWorker] builds from a key and the text of the
    scalar ([fmt.Sprint(cmd.key, ":", result)]). *)
Definition message (key result : string) : string :=
  fmt.Sprint [fmt.Str key; fmt.Str ":"; fmt.Str result].

(** Encoding of a Result [{name, value}]: the message above, the integer
    in the decimal text the data base hands to [Scan]. *)
Definition encode (name : string) (value : Z) : string :=
  message name (strconv.FormatInt value).

(** Decoding, as [statsdSender] does it between its [defer] and its call
    of [client.Inc]: the split, the two index expressions and the
    conversion. *)
Definition decode (msg : string) : Go (string * (Z * option error)) :=
  let arr := strings.Split msg ":" in
  key <- index arr 0 ;;
  arr1 <- index arr 1 ;;
  ret (key, strconv.ParseInt arr1).

(** The increments a trace sends to the sink. *)
Fixpoint increments (t : list Event) : list (string * Z * Q) :=
  match t with
  | [] => []
  | SinkInc k v r :: t' => (k, v, r) :: increments t'
  | _ :: t' => increments t'
  end.

(** The messages a trace puts on the [results] channel. *)
Fixpoint sent (t : list Event) : list string :=
  match t with
  | [] => []
  | Send m :: t' => m :: sent t'
  | _ :: t' => sent t'
  end.

Definition in_int64 (v : Z) : Prop := - 2 ^ 63 <= v < 2 ^ 63.

(** What the connection-string builder owes for given parameters. *)
Definition uri_contract (user pass host db : string) (port : Z) (uri : string)
  : Prop :=
  (host = "" -> uri = user ++ ":" ++ pass ++ "@/" ++ db) /\
  (host <> "" ->
   uri = user ++ ":" ++ pass ++ "@" ++ host ++ ":" ++
         strconv.FormatInt port ++ "/" ++ db).

(** Default application: [actual] is the default when the value read is
    0 and the value read otherwise. *)
Definition port_defaulting (read default actual : Z) : Prop :=
  (read = 0 -> actual = default) /\ (read <> 0 -> actual = read).

(** The library finds no key of that name for the section, neither in
    it nor in a parent section. *)
Definition absent (sec : ini.IniSection) (k : string) : Prop :=
  ini.lookup k (ini.keys sec) = None.

(** The section has the key and the conversion of its value to an
    integer fails, for whatever reason. *)
Definition conversion_fails (sec : ini.IniSection) (k : string) : Prop :=
  exists text e,
    ini.lookup k (ini.keys sec) = Some text /\
    snd (strconv.ParseInt0 text) = Some e.

(** The section has the key and its value is not the text of an
    integer in any of the notations of base 0 (decimal, [0x], [0o] or a
    leading [0], [0b], underscores between digits): the conversion
    reports invalid syntax. *)
Definition invalid_syntax (sec : ini.IniSection) (k : string) : Prop :=
  exists text f n,
    ini.lookup k (ini.keys sec) = Some text /\
    snd (strconv.ParseInt0 text) = Some (NumError f n ErrSyntax).

(** [sections] holds the section [sec] named [config], and no section
    of that name after it. *)
Definition config_section (sections : ini.File) (sec : ini.IniSection) : Prop :=
  exists pre post,
    sections = (pre ++ sec :: post)%list /\
    ini.Name sec = "config" /\
    Forall (fun s => ini.Name s <> "config") post.

(** The sections [configure] reads a command from. *)
Definition is_probe_section (s : ini.IniSection) : bool :=
  negb (String.eqb (ini.Name s) "DEFAULT") &&
  negb (String.eqb (ini.Name s) "config").

(** The values a section gives for a command. *)
Definition probe_key (s : ini.IniSection) : string :=
  ini.String_ (ini.Key s "key").
Definition probe_query (s : ini.IniSection) : string :=
  ini.String_ (ini.Key s "query").
Definition probe_freq (s : ini.IniSection) : Z :=
  fst (ini.Int (ini.Key s "freq")).

Definition probe_of (s : ini.IniSection) : Mambo.command :=
  {| Mambo.key := probe_key s; Mambo.query := probe_query s;
     Mambo.freq := probe_freq s |}.

(** The invariant of the data model on a Probe. *)
Definition probe_invariant (c : Mambo.command) : Prop :=
  0 < Mambo.freq c /\ Mambo.key c <> "".

(** The [config] section of the README with one more key, a port under
    the name and with the value of choice, and the first query. *)
Definition cfg_with (port_key port : string) : ini.File :=
  [ {| ini.Name := "DEFAULT"; ini.keys := [] |};
    {| ini.Name := "config";
       ini.keys := [("mysql_user", "root"); ("mysql_pass", "root123");
                    ("mysql_db", "information_schema");
                    ("statsd_host", "127.0.0.1"); (port_key, port)] |};
    readme_query "query1" "mysql.server.query1" "SELECT 1" "1000" ].

(** A file with a section that names a query and nothing else. *)
Definition cfg_bare_probe : ini.File :=
  [ {| ini.Name := "DEFAULT"; ini.keys := [] |};
    readme_config;
    {| ini.Name := "query1"; ini.keys := [("query", "SELECT 1")] |} ].

(** The configuration of the README (local socket), and one over TCP. *)
Definition local_configuration : Mambo.configuration :=
  {| Mambo.mysqlHost := ""; Mambo.mysqlUser := "root";
     Mambo.mysqlPass := "root123"; Mambo.mysqlDb := "information_schema";
     Mambo.mysqlPort := 3306; Mambo.statsdHost := "127.0.0.1";
     Mambo.statsdPort := 8125 |}.

Definition tcp_configuration : MamboSrc.configuration :=
  {| MamboSrc.mysql_host := "db1"; MamboSrc.mysql_user := "root";
     MamboSrc.mysql_pass := "root123";
     MamboSrc.mysql_db := "information_schema";
     MamboSrc.mysql_port := 3307; MamboSrc.statsd_host := "127.0.0.1";
     MamboSrc.statsd_port := 8125 |}.

(** ** Vocabulary of the further properties *)

(** The same configuration and the same command in the records of
    [src/mambo.go]. *)
Definition to_src_configuration (c : Mambo.configuration)
  : MamboSrc.configuration :=
  {| MamboSrc.mysql_host := Mambo.mysqlHost c;
     MamboSrc.mysql_user := Mambo.mysqlUser c;
     MamboSrc.mysql_pass := Mambo.mysqlPass c;
     MamboSrc.mysql_db := Mambo.mysqlDb c;
     MamboSrc.mysql_port := Mambo.mysqlPort c;
     MamboSrc.statsd_host := Mambo.statsdHost c;
     MamboSrc.statsd_port := Mambo.statsdPort c |}.

Definition to_src_command (c : Mambo.command) : MamboSrc.command :=
  {| MamboSrc.key := Mambo.key c; MamboSrc.query := Mambo.query c;
     MamboSrc.freq := Mambo.freq c |}.


Definition is_SinkClose (e : Event) : bool :=
  match e with SinkClose => true | _ => false end.

Definition is_DbClose (e : Event) : bool :=
  match e with DbClose => true | _ => false end.

Definition is_StmtClose (e : Event) : bool :=
  match e with StmtClose => true | _ => false end.

(** The controllers a trace starts. *)
Fixpoint spawns (t : list Event) : list (string * string * Z) :=
  match t with
  | [] => []
  | Spawn k q f :: t' => (k, q, f) :: spawns t'
  | _ :: t' => spawns t'
  end.

(** The messages a trace logs at level Error. *)
Fixpoint error_logs (t : list Event) : list string :=
  match t with
  | [] => []
  | Log ERROR m :: t' => m :: error_logs t'
  | _ :: t' => error_logs t'
  end.

(** What [log_if_err] leaves in the trace. *)
Definition log_of (err : option error) : list Event :=
  match err with
  | Some e => [Log ERROR (Error e)]
  | None => []
  end.

(** The sink gives a client for every address. *)
Definition client_ok (w : StatsdWorld) : Prop :=
  forall addr, statsd_NewClient w addr "" = None.

(** The data base opens under the name [dsn] and prepares [q]. *)
Definition db_ok (w : SqlWorld) (dsn q : string) : Prop :=
  sql_Open w "mysql" dsn = None /\ db_Prepare w q = None.

(** What [result] holds after the scan: the scalar, or the empty string
    it was declared with. *)
Definition scalar_or_empty (w : SqlWorld) (q : string) : string :=
  match row_Scan w q with
  | inl v => v
  | inr _ => ""
  end.

(** The command a section stands for, as a controller is started with
    it. *)
Definition spawn_of (s : ini.IniSection) : string * string * Z :=
  (probe_key s, probe_query s, probe_freq s).

(** A data base that cannot be opened. *)
Definition sql_down : SqlWorld :=
  {| sql_Open := fun _ _ => Some (ExtError "dial tcp: connection refused");
     db_Ping := None; db_Prepare := fun _ => None;
     row_Scan := fun _ => inl "1" |}.

(** A data base that opens and answers [v], but whose ping fails. *)
Definition sql_ping_fails (v : string) : SqlWorld :=
  {| sql_Open := fun _ _ => None;
     db_Ping := Some (ExtError "driver: bad connection");
     db_Prepare := fun _ => None; row_Scan := fun _ => inl v |}.

(** A sink that takes the client but fails every send. *)
Definition statsd_send_fails : StatsdWorld :=
  {| statsd_NewClient := fun _ _ => None;
     client_Inc := fun _ _ _ => Some (ExtError "write udp: connection refused") |}.

(** A file with commands and no [config] section. *)
Definition cfg_no_config : ini.File :=
  [ {| ini.Name := "DEFAULT"; ini.keys := [] |};
    readme_query "query1" "mysql.server.query1" "SELECT 1" "1000" ].

(** A command of the README. *)
Definition query1 : Mambo.command :=
  {| Mambo.key := "mysql.server.query1"; Mambo.query := "SELECT 1";
     Mambo.freq := 1000 |}.

(** A file with a child section, as the library presents it: for
    [query1.sub], which has a line for [query] only, it finds [key] and
    [freq] in the parent section [query1]. *)
Definition cfg_child_section : ini.File :=
  [ {| ini.Name := "DEFAULT"; ini.keys := [] |};
    readme_config;
    readme_query "query1" "k" "SELECT 1" "1000";
    {| ini.Name := "query1.sub";
       ini.keys := [("query", "SELECT 2"); ("key", "k"); ("freq", "1000")] |} ].

(** ** Facts about the library models *)

Section Strconv.

Import strconv.

Lemma byte_digit d : 0 <= d <= 9 -> byte (digit d) = 48 + d.
Proof.
  intros H. unfold byte, digit.
  rewrite nat_ascii_embedding by lia. lia.
Qed.

Lemma digit_not_sign c :
  (48 <=? byte c) && (byte c <=? 57) = true ->
  Ascii.eqb c "+" = false /\ Ascii.eqb c "-" = false /\ Ascii.eqb c ":" = false.
Proof.
  intros H. apply andb_true_iff in H as [H1 H2].
  apply Z.leb_le in H1, H2.
  repeat split; apply Ascii.eqb_neq; intros ->; vm_compute in H1, H2;
    congruence.
Qed.

Lemma digit_is_digit d :
  0 <= d <= 9 -> (48 <=? byte (digit d)) && (byte (digit d) <=? 57) = true.
Proof.
  intros H. rewrite byte_digit by assumption.
  apply andb_true_iff; split; apply Z.leb_le; lia.
Qed.

(** One turn of the loop on a digit that does not overflow. *)
Lemma parseLoop_digit d n s :
  0 <= d <= 9 -> 0 <= n -> n * 10 + d <= maxUint64 ->
  parseLoop (String (digit d) s) n = parseLoop s (n * 10 + d).
Proof.
  intros Hd Hn Hmax. unfold maxUint64 in Hmax.
  cbn [parseLoop]. rewrite digit_is_digit by assumption.
  rewrite byte_digit by assumption.
  replace (48 + d - 48) with d by lia.
  assert (Hc : (n >=? maxUint64 / 10 + 1) = false).
  { unfold maxUint64. rewrite Z.geb_leb. apply Z.leb_gt.
    change ((2 ^ 64 - 1) / 10 + 1) with 1844674407370955162. lia. }
  rewrite Hc. cbv zeta.
  rewrite Z.mod_small by lia.
  assert (H1 : (n * 10 + d <? n * 10) = false) by (apply Z.ltb_ge; lia).
  assert (H2 : (n * 10 + d >? maxUint64) = false).
  { unfold maxUint64. rewrite Z.gtb_ltb. apply Z.ltb_ge. lia. }
  rewrite H1, H2. reflexivity.
Qed.

(** Reading back what [formatBits] wrote: the digits of [u] in front of
    [acc] take the loop from 0 to [u]. *)
Lemma parseLoop_formatBits n :
  forall u acc, 0 <= u <= maxUint64 -> u < 10 ^ Z.of_nat n ->
    parseLoop (formatBits n u acc) 0 = parseLoop acc u.
Proof.
  induction n as [|n IH]; intros u acc Hu Hfuel.
  - cbn in Hfuel. assert (u = 0) by lia. subst. reflexivity.
  - cbn [formatBits]. destruct (Z.ltb_spec u 10) as [Hlt|Hge].
    + rewrite parseLoop_digit by (unfold maxUint64 in *; lia).
      reflexivity.
    + rewrite Nat2Z.inj_succ, Z.pow_succ_r in Hfuel by lia.
      pose proof (Z.mod_pos_bound u 10 ltac:(lia)) as Hm.
      pose proof (Z.div_mod u 10 ltac:(lia)) as Hdm.
      rewrite IH.
      * rewrite parseLoop_digit.
        -- f_equal. lia.
        -- lia.
        -- apply Z.div_pos; lia.
        -- unfold maxUint64 in *. lia.
      * split; [apply Z.div_pos; lia|].
        apply Z.le_trans with u; [|lia].
        apply Z.div_le_upper_bound; lia.
      * apply Z.div_lt_upper_bound; lia.
Qed.

(** What [formatBits] writes starts with a digit. *)
Lemma formatBits_head n :
  forall u acc, 0 <= u ->
    exists c s, formatBits (S n) u acc = String c s /\
                (48 <=? byte c) && (byte c <=? 57) = true.
Proof.
  induction n as [|n IH]; intros u acc Hu.
  - cbn [formatBits]. destruct (Z.ltb_spec u 10).
    + eexists _, _. split; [reflexivity|]. apply digit_is_digit. lia.
    + eexists _, _. split; [reflexivity|]. apply digit_is_digit.
      pose proof (Z.mod_pos_bound u 10 ltac:(lia)). lia.
  - change (formatBits (S (S n)) u acc) with
      (if u <? 10 then String (digit u) acc
       else formatBits (S n) (u / 10) (String (digit (u mod 10)) acc)).
    destruct (Z.ltb_spec u 10).
    + eexists _, _. split; [reflexivity|]. apply digit_is_digit. lia.
    + apply IH. apply Z.div_pos; lia.
Qed.

Lemma ParseUint_formatBits u :
  0 <= u <= maxUint64 -> ParseUint (formatBits 20 u "") = UOk u.
Proof.
  intros Hu. destruct (formatBits_head 19 u "" (proj1 Hu)) as (c & s & E & _).
  unfold ParseUint. rewrite E, <- E.
  rewrite parseLoop_formatBits; [reflexivity|assumption|].
  unfold maxUint64 in Hu. change (10 ^ Z.of_nat 20) with 100000000000000000000.
  change (2 ^ 64) with 18446744073709551616 in Hu. lia.
Qed.

(** [ParseInt] undoes [FormatInt] on every [int64]. *)
Lemma ParseInt_FormatInt v :
  in_int64 v -> ParseInt (FormatInt v) = (v, None).
Proof.
  unfold in_int64. change (2 ^ 63) with 9223372036854775808. intros Hv.
  unfold FormatInt. destruct (Z.ltb_spec v 0) as [Hneg|Hpos].
  - unfold ParseInt. change (Ascii.eqb "-" "+") with false.
    change (Ascii.eqb "-" "-") with true. cbv iota zeta.
    rewrite ParseUint_formatBits
      by (unfold maxUint64; change (2 ^ 64) with 18446744073709551616; lia).
    change (2 ^ 63) with 9223372036854775808.
    cbn [negb andb].
    assert (H : (- v >? 9223372036854775808) = false)
      by (rewrite Z.gtb_ltb; apply Z.ltb_ge; lia).
    rewrite H. f_equal. lia.
  - destruct (formatBits_head 19 v "" Hpos) as (c & s & E & Hc).
    destruct (digit_not_sign c Hc) as (Hplus & Hminus & _).
    unfold ParseInt. rewrite E, Hplus, Hminus. cbv iota zeta. rewrite <- E.
    rewrite ParseUint_formatBits
      by (unfold maxUint64; change (2 ^ 64) with 18446744073709551616; lia).
    change (2 ^ 63) with 9223372036854775808.
    cbn [negb andb].
    assert (H : (v >=? 9223372036854775808) = false)
      by (rewrite Z.geb_leb; apply Z.leb_gt; lia).
    rewrite H. reflexivity.
Qed.

End Strconv.

Section Strings.

Import strconv.

Lemma append_nil_r (s : string) : s ++ "" = s.
Proof. induction s as [|c s IH]; cbn; [reflexivity | now rewrite IH]. Qed.

(** Without a separator in it, a string is its own single piece. *)
Lemma Split_no_sep sep s :
  occurs sep s = false -> strings.Split s sep = [s].
Proof.
  induction s as [|c s IH]; cbn; intros H; [reflexivity|].
  apply orb_false_iff in H as [Hc Hs].
  rewrite Hc, (IH Hs). reflexivity.
Qed.

(** The first piece is what stands before the first separator. *)
Lemma Split_app sep a b :
  occurs sep a = false ->
  strings.Split (a ++ String sep b) sep = a :: strings.Split b sep.
Proof.
  induction a as [|c a IH]; cbn; intros H.
  - now rewrite Ascii.eqb_refl.
  - apply orb_false_iff in H as [Hc Ha].
    rewrite Hc, (IH Ha). reflexivity.
Qed.

(** [Sprint] of three strings puts nothing between them. *)
Lemma message_eq key result : message key result = key ++ String ":" result.
Proof.
  unfold message, fmt.Sprint. cbn. now rewrite append_nil_r.
Qed.

(** A text the loop of [ParseUint] accepts is made of digits. *)
Lemma parseLoop_ok_no_colon s :
  forall n m, parseLoop s n = UOk m -> occurs ":" s = false.
Proof.
  induction s as [|c s IH]; intros n m H; [reflexivity|].
  cbn [parseLoop] in H. cbn [occurs].
  destruct ((48 <=? byte c) && (byte c <=? 57)) eqn:Hc; [|discriminate].
  destruct (digit_not_sign c Hc) as (_ & _ & ->).
  destruct (n >=? maxUint64 / 10 + 1); [discriminate|].
  cbv zeta in H.
  destruct (_ || _) in H; [discriminate|].
  exact (IH _ _ H).
Qed.

(** A text [ParseInt] converts without error holds no [':']. *)
Lemma ParseInt_ok_no_colon s v :
  ParseInt s = (v, None) -> occurs ":" s = false.
Proof.
  destruct s as [|c s]; [discriminate|]. unfold ParseInt.
  set (s1 := if Ascii.eqb c "+" then s else if Ascii.eqb c "-" then s else String c s).
  intros H.
  assert (Hu : exists n, ParseUint s1 = UOk n).
  { destruct (ParseUint s1) as [n| |] eqn:E; [now exists n|discriminate|].
    exfalso. cbv zeta in H.
    destruct (Ascii.eqb c "-"); cbn in H; discriminate. }
  destruct Hu as [n Hn]. clear H.
  assert (Hs1 : occurs ":" s1 = false).
  { unfold ParseUint in Hn. destruct s1; [discriminate|].
    eapply parseLoop_ok_no_colon; eassumption. }
  subst s1. cbn [occurs].
  destruct (Ascii.eqb_spec c "+") as [->|_]; [exact Hs1|].
  destruct (Ascii.eqb_spec c "-") as [->|_]; [exact Hs1|].
  exact Hs1.
Qed.

(** Decoding a message whose key holds no [':'] and whose value text
    does not either. *)
Lemma decode_message key text :
  occurs ":" key = false -> occurs ":" text = false ->
  decode (message key text) = ret (key, ParseInt text).
Proof.
  intros Hk Ht. unfold decode.
  rewrite message_eq, Split_app, Split_no_sep by assumption.
  reflexivity.
Qed.

End Strings.

(** ** The connection-string builder *)

Lemma uri_local user pass db :
  fmt.Sprint [fmt.Str user; fmt.Str ":"; fmt.Str pass; fmt.Str "@";
              fmt.Str "/"; fmt.Str db]
  = user ++ ":" ++ pass ++ "@/" ++ db.
Proof. unfold fmt.Sprint. cbn. now rewrite append_nil_r. Qed.

Lemma uri_tcp user pass host port db :
  fmt.Sprint [fmt.Str user; fmt.Str ":"; fmt.Str pass; fmt.Str "@";
              fmt.Str host; fmt.Str ":"; fmt.Int port; fmt.Str "/"; fmt.Str db]
  = user ++ ":" ++ pass ++ "@" ++ host ++ ":" ++ strconv.FormatInt port ++
    "/" ++ db.
Proof. unfold fmt.Sprint. cbn. now rewrite append_nil_r. Qed.

(** C3.  For every configuration the data-source connection string is
    exactly [user:credential@/database] when the host is empty and
    exactly [user:credential@host:port/database] otherwise, the port in
    decimal; in [mambo.go] and in [src/mambo.go] alike. *)
Theorem mysqlURIBuilder_contract :
  (forall c : Mambo.configuration,
     uri_contract (Mambo.mysqlUser c) (Mambo.mysqlPass c) (Mambo.mysqlHost c)
       (Mambo.mysqlDb c) (Mambo.mysqlPort c) (Mambo.mysqlURIBuilder c)) /\
  (forall c : MamboSrc.configuration,
     uri_contract (MamboSrc.mysql_user c) (MamboSrc.mysql_pass c)
       (MamboSrc.mysql_host c) (MamboSrc.mysql_db c) (MamboSrc.mysql_port c)
       (MamboSrc.mysqlUriBuilder c)).
Proof.
  split; intros c; unfold uri_contract.
  - unfold Mambo.mysqlURIBuilder.
    destruct (String.eqb_spec (Mambo.mysqlHost c) "") as [E|E].
    + split; [intros _; apply uri_local | intros N; contradiction].
    + split; [intros N; contradiction | intros _; apply uri_tcp].
  - unfold MamboSrc.mysqlUriBuilder.
    destruct (String.eqb_spec (MamboSrc.mysql_host c) "") as [E|E].
    + split; [intros _; apply uri_local | intros N; contradiction].
    + split; [intros N; contradiction | intros _; apply uri_tcp].
Qed.

Lemma mysqlURIBuilder_contract_witness :
  Mambo.mysqlURIBuilder local_configuration
  = "root:root123@/information_schema" /\
  MamboSrc.mysqlUriBuilder tcp_configuration
  = "root:root123@db1:3307/information_schema".
Proof.
  split.
  - exact (proj1 (proj1 mysqlURIBuilder_contract local_configuration) eq_refl).
  - apply (proj2 (proj2 mysqlURIBuilder_contract tcp_configuration)).
    discriminate.
Defined.

(** ** Configuration load *)

Section Configure.

Import ini.

(** The conversion returns 0 whenever it reports invalid syntax. *)
Lemma ParseInt_syntax_zero text f n :
  snd (strconv.ParseInt text) = Some (NumError f n ErrSyntax) ->
  fst (strconv.ParseInt text) = 0.
Proof.
  destruct text as [|c s]; [reflexivity|].
  unfold strconv.ParseInt.
  destruct (strconv.ParseUint _) as [u| |]; cbv zeta;
    [ | reflexivity | ];
    repeat match goal with
           | |- context [if ?b then _ else _] => destruct b
           end; cbn; intros H; congruence.
Qed.

Lemma ParseInt0_syntax_zero text f n :
  snd (strconv.ParseInt0 text) = Some (NumError f n ErrSyntax) ->
  fst (strconv.ParseInt0 text) = 0.
Proof.
  destruct text as [|c s]; [reflexivity|].
  unfold strconv.ParseInt0.
  destruct (strconv.ParseUint0 _) as [u| |]; cbv zeta;
    [ | reflexivity | ];
    repeat match goal with
           | |- context [if ?b then _ else _] => destruct b
           end; cbn; intros H; congruence.
Qed.

Lemma Int_absent sec k : absent sec k -> fst (Int (Key sec k)) = 0.
Proof. unfold absent, Int, Key. now intros ->. Qed.

Lemma Int_invalid_syntax sec k : invalid_syntax sec k -> fst (Int (Key sec k)) = 0.
Proof.
  intros (text & f & n & Hl & He). unfold Int, Key. rewrite Hl. cbn.
  eapply ParseInt0_syntax_zero; eassumption.
Qed.

Lemma defaulting read default :
  port_defaulting read default (if read =? 0 then default else read).
Proof.
  unfold port_defaulting. destruct (Z.eqb_spec read 0); split; congruence.
Qed.

(** The two programs differ in names only; their lemmas on the loop over
    the sections share their proofs. *)

(* A section that is not [config] leaves the first component alone. *)
Ltac other_sections step :=
  let s := fresh "s" in
  let Hs := fresh "Hs" in
  let IH := fresh "IH" in
  induction 1 as [|s ? Hs _ IH]; intros [? ?]; [reflexivity|];
  cbn [fold_left]; rewrite IH; unfold step;
  apply String.eqb_neq in Hs; rewrite Hs;
  destruct (negb _); [|reflexivity];
  now destruct (Int (Key s "freq")).

(* The section named [config] sets both ports. *)
Ltac config_ports step sec sink_key :=
  let Hn := fresh "Hn" in
  intros Hn; match goal with st : (_ * _)%type |- _ => destruct st end;
  unfold step; rewrite Hn; cbn [String.eqb Ascii.eqb Bool.eqb negb];
  destruct (Int (Key sec "mysql_port")), (Int (Key sec sink_key));
  cbn; split; reflexivity.

(* The last [config] section decides. *)
Ltac last_config other ports :=
  let Hn := fresh "Hn" in
  let Hpost := fresh "Hpost" in
  intros (? & ? & -> & Hn & Hpost); cbv zeta;
  rewrite fold_left_app; cbn [fold_left];
  rewrite other by assumption;
  now apply ports.

(** A file that loads is read without a failure and without a word in
    the log. *)
Lemma Mambo_configure_loaded fs cfgfile file :
  fs cfgfile = inl file ->
  Mambo.configure fs cfgfile =
  (Return (fold_left Mambo.configure_section file
             (Mambo.zero_configuration, [])), []).
Proof. intros H. unfold Mambo.configure. now rewrite H. Qed.

Lemma MamboSrc_configure_loaded fs cfgfile file :
  fs cfgfile = inl file ->
  MamboSrc.configure fs cfgfile =
  (Return (fold_left MamboSrc.configure_section file
             (MamboSrc.zero_configuration, [])), []).
Proof. intros H. unfold MamboSrc.configure. now rewrite H. Qed.

(** Sections other than [config] leave the configuration alone. *)
Lemma Mambo_fold_other post :
  Forall (fun s => Name s <> "config") post ->
  forall st, fst (fold_left Mambo.configure_section post st) = fst st.
Proof. other_sections Mambo.configure_section. Qed.

Lemma MamboSrc_fold_other post :
  Forall (fun s => Name s <> "config") post ->
  forall st, fst (fold_left MamboSrc.configure_section post st) = fst st.
Proof. other_sections MamboSrc.configure_section. Qed.

(** The ports the [config] section leaves in the configuration. *)
Lemma Mambo_section_ports st sec :
  Name sec = "config" ->
  let cfg := fst (Mambo.configure_section st sec) in
  let my := fst (Int (Key sec "mysql_port")) in
  let sd := fst (Int (Key sec "stats_port")) in
  Mambo.mysqlPort cfg = (if my =? 0 then 3306 else my) /\
  Mambo.statsdPort cfg = (if sd =? 0 then 8125 else sd).
Proof. config_ports Mambo.configure_section sec "stats_port". Qed.

Lemma MamboSrc_section_ports st sec :
  Name sec = "config" ->
  let cfg := fst (MamboSrc.configure_section st sec) in
  let my := fst (Int (Key sec "mysql_port")) in
  let sd := fst (Int (Key sec "statsd_port")) in
  MamboSrc.mysql_port cfg = (if my =? 0 then 3306 else my) /\
  MamboSrc.statsd_port cfg = (if sd =? 0 then 8125 else sd).
Proof. config_ports MamboSrc.configure_section sec "statsd_port". Qed.

(** The ports of a loaded file are those of its last [config] section. *)
Lemma Mambo_ports file sec :
  config_section file sec ->
  let cfg := fst (fold_left Mambo.configure_section file
                    (Mambo.zero_configuration, [])) in
  let my := fst (Int (Key sec "mysql_port")) in
  let sd := fst (Int (Key sec "stats_port")) in
  Mambo.mysqlPort cfg = (if my =? 0 then 3306 else my) /\
  Mambo.statsdPort cfg = (if sd =? 0 then 8125 else sd).
Proof. last_config Mambo_fold_other Mambo_section_ports. Qed.

Lemma MamboSrc_ports file sec :
  config_section file sec ->
  let cfg := fst (fold_left MamboSrc.configure_section file
                    (MamboSrc.zero_configuration, [])) in
  let my := fst (Int (Key sec "mysql_port")) in
  let sd := fst (Int (Key sec "statsd_port")) in
  MamboSrc.mysql_port cfg = (if my =? 0 then 3306 else my) /\
  MamboSrc.statsd_port cfg = (if sd =? 0 then 8125 else sd).
Proof. last_config MamboSrc_fold_other MamboSrc_section_ports. Qed.

(** The commands of a loaded file: one per section other than
    [DEFAULT] and [config], in file order, as the section gives it. *)
Lemma Mambo_fold_commands file :
  forall cfg cmds,
    snd (fold_left Mambo.configure_section file (cfg, cmds)) =
    (cmds ++ map probe_of (filter is_probe_section file))%list.
Proof.
  induction file as [|s file IH]; intros cfg cmds.
  - cbn. now rewrite app_nil_r.
  - cbn [fold_left filter]. unfold is_probe_section at 1.
    unfold Mambo.configure_section at 2.
    destruct (String.eqb (Name s) "DEFAULT"); cbn [negb andb].
    + apply IH.
    + destruct (String.eqb (Name s) "config"); cbn [negb].
      * destruct (Int (Key s "mysql_port")), (Int (Key s "stats_port")).
        apply IH.
      * destruct (Int (Key s "freq")) as [fr e] eqn:E.
        rewrite IH. cbn [map]. rewrite <- app_assoc. cbn [app].
        unfold probe_of, probe_freq, probe_key, probe_query.
        now rewrite E.
Qed.

End Configure.

(** Both programs on a file that loads: no failure, an empty log, and
    each port the default or the value read. *)
Lemma configure_ports fs cfgfile file sec :
  fs cfgfile = inl file ->
  config_section file sec ->
  exists cfg cmds cfg' cmds',
    Mambo.configure fs cfgfile = (Return (cfg, cmds), []) /\
    MamboSrc.configure fs cfgfile = (Return (cfg', cmds'), []) /\
    port_defaulting (fst (ini.Int (ini.Key sec "mysql_port"))) 3306
      (Mambo.mysqlPort cfg) /\
    port_defaulting (fst (ini.Int (ini.Key sec "stats_port"))) 8125
      (Mambo.statsdPort cfg) /\
    port_defaulting (fst (ini.Int (ini.Key sec "mysql_port"))) 3306
      (MamboSrc.mysql_port cfg') /\
    port_defaulting (fst (ini.Int (ini.Key sec "statsd_port"))) 8125
      (MamboSrc.statsd_port cfg').
Proof.
  intros Hload Hsec.
  destruct (fold_left Mambo.configure_section file
              (Mambo.zero_configuration, [])) as [cfg cmds] eqn:E.
  destruct (fold_left MamboSrc.configure_section file
              (MamboSrc.zero_configuration, [])) as [cfg' cmds'] eqn:E'.
  exists cfg, cmds, cfg', cmds'.
  rewrite (Mambo_configure_loaded _ _ _ Hload), E.
  rewrite (MamboSrc_configure_loaded _ _ _ Hload), E'.
  destruct (Mambo_ports file sec Hsec) as [H1 H2]. rewrite E in H1, H2.
  destruct (MamboSrc_ports file sec Hsec) as [H3 H4]. rewrite E' in H3, H4.
  cbn [fst] in H1, H2, H3, H4. rewrite H1, H2, H3, H4.
  repeat split; apply defaulting.
Qed.

(** C5, as the code has it.  When a file loads and has a [config]
    section, the port read from that section (0 when the key is absent)
    becomes the default, 3306 for the data source and 8125 for the
    sink, when it is 0, and goes to the configuration unchanged when it
    is not; in [mambo.go], which reads the sink port under [stats_port],
    and in [src/mambo.go], which reads it under [statsd_port]. *)
Theorem configure_port_defaults fs cfgfile file sec :
  fs cfgfile = inl file ->
  config_section file sec ->
  exists cfg cmds cfg' cmds',
    Mambo.configure fs cfgfile = (Return (cfg, cmds), []) /\
    MamboSrc.configure fs cfgfile = (Return (cfg', cmds'), []) /\
    port_defaulting (fst (ini.Int (ini.Key sec "mysql_port"))) 3306
      (Mambo.mysqlPort cfg) /\
    port_defaulting (fst (ini.Int (ini.Key sec "stats_port"))) 8125
      (Mambo.statsdPort cfg) /\
    port_defaulting (fst (ini.Int (ini.Key sec "mysql_port"))) 3306
      (MamboSrc.mysql_port cfg') /\
    port_defaulting (fst (ini.Int (ini.Key sec "statsd_port"))) 8125
      (MamboSrc.statsd_port cfg') /\
    (absent sec "mysql_port" -> fst (ini.Int (ini.Key sec "mysql_port")) = 0) /\
    (absent sec "stats_port" -> fst (ini.Int (ini.Key sec "stats_port")) = 0) /\
    (absent sec "statsd_port" -> fst (ini.Int (ini.Key sec "statsd_port")) = 0).
Proof.
  intros Hload Hsec.
  destruct (configure_ports fs cfgfile file sec Hload Hsec)
    as (cfg & cmds & cfg' & cmds' & H & H' & P1 & P2 & P3 & P4).
  exists cfg, cmds, cfg', cmds'.
  repeat (split; [assumption|]).
  repeat split; apply Int_absent.
Qed.

Lemma config_section_cfg_with k p :
  config_section (cfg_with k p)
    {| ini.Name := "config";
       ini.keys := [("mysql_user", "root"); ("mysql_pass", "root123");
                    ("mysql_db", "information_schema");
                    ("statsd_host", "127.0.0.1"); (k, p)] |}.
Proof.
  exists [ {| ini.Name := "DEFAULT"; ini.keys := [] |} ],
         [ readme_query "query1" "mysql.server.query1" "SELECT 1" "1000" ].
  split; [reflexivity|]. split; [reflexivity|].
  constructor; [discriminate | constructor].
Defined.

(** The README's file with the data-source port set to 3307: that port
    goes through, the sink port is the default in both programs. *)
Lemma configure_port_defaults_witness :
  exists cfg cmds cfg' cmds',
    Mambo.configure (fs_with "mambo.cfg" (cfg_with "mysql_port" "3307"))
      "mambo.cfg" = (Return (cfg, cmds), []) /\
    MamboSrc.configure (fs_with "mambo.cfg" (cfg_with "mysql_port" "3307"))
      "mambo.cfg" = (Return (cfg', cmds'), []) /\
    Mambo.mysqlPort cfg = 3307 /\ Mambo.statsdPort cfg = 8125 /\
    MamboSrc.mysql_port cfg' = 3307 /\ MamboSrc.statsd_port cfg' = 8125.
Proof.
  destruct (configure_port_defaults
              (fs_with "mambo.cfg" (cfg_with "mysql_port" "3307")) "mambo.cfg"
              (cfg_with "mysql_port" "3307") _ eq_refl
              (config_section_cfg_with "mysql_port" "3307"))
    as (cfg & cmds & cfg' & cmds' & H & H' & P1 & P2 & P3 & P4 & _).
  exists cfg, cmds, cfg', cmds'.
  split; [exact H|]. split; [exact H'|].
  split; [apply (proj2 P1); discriminate|].
  split; [apply (proj1 P2); reflexivity|].
  split; [apply (proj2 P3); discriminate|].
  apply (proj1 P4); reflexivity.
Defined.

(** C5, as the specification states it, fails on a file without a
    [config] section: the defaults are applied where that section is
    read and nowhere else, so the file loads and both ports, absent as
    they are, stay 0 in both programs. *)
Lemma configure_ports_stay_zero :
  exists cfg cmds cfg' cmds',
    Mambo.configure (fs_with "mambo.cfg" cfg_no_config) "mambo.cfg"
    = (Return (cfg, cmds), []) /\
    MamboSrc.configure (fs_with "mambo.cfg" cfg_no_config) "mambo.cfg"
    = (Return (cfg', cmds'), []) /\
    Mambo.mysqlPort cfg = 0 /\ Mambo.statsdPort cfg = 0 /\
    MamboSrc.mysql_port cfg' = 0 /\ MamboSrc.statsd_port cfg' = 0 /\
    Mambo.mysqlPort cfg <> 3306 /\ Mambo.statsdPort cfg <> 8125.
Proof.
  eexists _, _, _, _. repeat (split; [reflexivity|]). split; discriminate.
Qed.

(** C10, as the code has it.  A port of the [config] section whose
    value is present but is not the text of an integer (the conversion,
    in base 0, reports invalid syntax) is handled as an absent one: the
    error of the conversion is dropped (nothing is logged, the load does
    not fail), the value read is 0, and the default, 3306 or 8125, is
    applied. *)
Theorem configure_invalid_syntax_port fs cfgfile file sec :
  fs cfgfile = inl file ->
  config_section file sec ->
  exists cfg cmds cfg' cmds',
    Mambo.configure fs cfgfile = (Return (cfg, cmds), []) /\
    MamboSrc.configure fs cfgfile = (Return (cfg', cmds'), []) /\
    (absent sec "mysql_port" \/ invalid_syntax sec "mysql_port" ->
     fst (ini.Int (ini.Key sec "mysql_port")) = 0 /\
     Mambo.mysqlPort cfg = 3306 /\ MamboSrc.mysql_port cfg' = 3306) /\
    (absent sec "stats_port" \/ invalid_syntax sec "stats_port" ->
     fst (ini.Int (ini.Key sec "stats_port")) = 0 /\
     Mambo.statsdPort cfg = 8125) /\
    (absent sec "statsd_port" \/ invalid_syntax sec "statsd_port" ->
     fst (ini.Int (ini.Key sec "statsd_port")) = 0 /\
     MamboSrc.statsd_port cfg' = 8125).
Proof.
  intros Hload Hsec.
  destruct (configure_ports fs cfgfile file sec Hload Hsec)
    as (cfg & cmds & cfg' & cmds' & H & H' & P1 & P2 & P3 & P4).
  exists cfg, cmds, cfg', cmds'.
  split; [exact H|]. split; [exact H'|].
  assert (Z0 : forall k, absent sec k \/ invalid_syntax sec k ->
                         fst (ini.Int (ini.Key sec k)) = 0).
  { intros k [Ha|Hu]; [now apply Int_absent | now apply Int_invalid_syntax]. }
  repeat split; try (now apply Z0).
  - apply (proj1 P1). now apply Z0.
  - apply (proj1 P3). now apply Z0.
  - apply (proj1 P2). now apply Z0.
  - apply (proj1 P4). now apply Z0.
Qed.

(** The README's file with [mysql_port = abc]: port 3306 in both
    programs. *)
Lemma configure_invalid_syntax_port_witness :
  exists cfg cmds cfg' cmds',
    Mambo.configure (fs_with "mambo.cfg" (cfg_with "mysql_port" "abc"))
      "mambo.cfg" = (Return (cfg, cmds), []) /\
    MamboSrc.configure (fs_with "mambo.cfg" (cfg_with "mysql_port" "abc"))
      "mambo.cfg" = (Return (cfg', cmds'), []) /\
    Mambo.mysqlPort cfg = 3306 /\ MamboSrc.mysql_port cfg' = 3306.
Proof.
  destruct (configure_invalid_syntax_port
              (fs_with "mambo.cfg" (cfg_with "mysql_port" "abc")) "mambo.cfg"
              (cfg_with "mysql_port" "abc") _ eq_refl
              (config_section_cfg_with "mysql_port" "abc"))
    as (cfg & cmds & cfg' & cmds' & H & H' & P & _).
  exists cfg, cmds, cfg', cmds'.
  split; [exact H|]. split; [exact H'|].
  apply P. right. exists "abc", "ParseInt", "abc". split; reflexivity.
Defined.

(** C10, as the specification states it, fails when the conversion
    fails for the other reason it has: digits that do not fit 64 bits
    are reported as out of range and read as the largest [int64].  The
    error is dropped here too, but the value is not 0 and no default is
    applied, in either program. *)
Lemma configure_out_of_range_port :
  conversion_fails
    {| ini.Name := "config";
       ini.keys := [("mysql_user", "root"); ("mysql_pass", "root123");
                    ("mysql_db", "information_schema");
                    ("statsd_host", "127.0.0.1");
                    ("mysql_port", "99999999999999999999")] |}
    "mysql_port" /\
  exists cfg cmds cfg' cmds',
    Mambo.configure
      (fs_with "mambo.cfg" (cfg_with "mysql_port" "99999999999999999999"))
      "mambo.cfg" = (Return (cfg, cmds), []) /\
    MamboSrc.configure
      (fs_with "mambo.cfg" (cfg_with "mysql_port" "99999999999999999999"))
      "mambo.cfg" = (Return (cfg', cmds'), []) /\
    Mambo.mysqlPort cfg = 9223372036854775807 /\
    MamboSrc.mysql_port cfg' = 9223372036854775807 /\
    Mambo.mysqlPort cfg <> 3306 /\
    MamboSrc.mysql_port cfg' <> 3306.
Proof.
  split.
  - exists "99999999999999999999",
      (NumError "ParseInt" "99999999999999999999" ErrRange).
    split; reflexivity.
  - eexists _, _, _, _.
    repeat (split; [reflexivity|]). split; discriminate.
Qed.

(** C9.  The two loaders are not equivalent.  On the README's file with
    [statsd_port = 9125], [mambo.go], which looks for [stats_port],
    keeps the default 8125 where [src/mambo.go] takes 9125; with the key
    spelled [stats_port] it is the other way round. *)
Theorem configure_not_equivalent :
  (exists cfg cmds cfg' cmds',
     Mambo.configure (fs_with "mambo.cfg" (cfg_with "statsd_port" "9125"))
       "mambo.cfg" = (Return (cfg, cmds), []) /\
     MamboSrc.configure (fs_with "mambo.cfg" (cfg_with "statsd_port" "9125"))
       "mambo.cfg" = (Return (cfg', cmds'), []) /\
     Mambo.statsdPort cfg = 8125 /\ MamboSrc.statsd_port cfg' = 9125 /\
     Mambo.statsdPort cfg <> MamboSrc.statsd_port cfg') /\
  (exists cfg cmds cfg' cmds',
     Mambo.configure (fs_with "mambo.cfg" (cfg_with "stats_port" "9125"))
       "mambo.cfg" = (Return (cfg, cmds), []) /\
     MamboSrc.configure (fs_with "mambo.cfg" (cfg_with "stats_port" "9125"))
       "mambo.cfg" = (Return (cfg', cmds'), []) /\
     Mambo.statsdPort cfg = 9125 /\ MamboSrc.statsd_port cfg' = 8125 /\
     Mambo.statsdPort cfg <> MamboSrc.statsd_port cfg').
Proof.
  split; eexists _, _, _, _;
    (split; [reflexivity|]); (split; [reflexivity|]);
    (split; [reflexivity|]); (split; [reflexivity|]); discriminate.
Qed.

(** C6, as the code has it.  Configuration load turns every section
    other than [DEFAULT] and [config] into one command, in file order,
    and checks nothing: key and query are what [Key("key").String()]
    and [Key("query").String()] return for the section, freq is what
    [Key("freq").Int()] returns, its error dropped.  So the command of a
    section satisfies the invariant, interval positive and name not
    empty, exactly when these reads give a positive integer and a text
    that is not empty; it does not when the library finds no [key] or no
    [freq] for the section, or a [freq] that is not the text of an
    integer. *)
Theorem configure_commands fs cfgfile file :
  fs cfgfile = inl file ->
  exists cfg cmds,
    Mambo.configure fs cfgfile = (Return (cfg, cmds), []) /\
    cmds = map probe_of (filter is_probe_section file) /\
    forall s, In s file -> is_probe_section s = true ->
      In (probe_of s) cmds /\
      Mambo.key (probe_of s) = ini.String_ (ini.Key s "key") /\
      Mambo.query (probe_of s) = ini.String_ (ini.Key s "query") /\
      Mambo.freq (probe_of s) = fst (ini.Int (ini.Key s "freq")) /\
      (probe_invariant (probe_of s) <->
       0 < fst (ini.Int (ini.Key s "freq")) /\
       ini.String_ (ini.Key s "key") <> "") /\
      (absent s "key" \/ absent s "freq" \/ invalid_syntax s "freq" ->
       ~ probe_invariant (probe_of s)).
Proof.
  intros Hload.
  destruct (fold_left Mambo.configure_section file
              (Mambo.zero_configuration, [])) as [cfg cmds] eqn:E.
  exists cfg, cmds. rewrite (Mambo_configure_loaded _ _ _ Hload), E.
  split; [reflexivity|].
  pose proof (Mambo_fold_commands file Mambo.zero_configuration []) as Hc.
  rewrite E in Hc. cbn [snd app] in Hc. subst cmds.
  split; [reflexivity|].
  intros s Hin Hp.
  split; [apply in_map, filter_In; now split|].
  repeat (split; [reflexivity|]).
  unfold probe_invariant. cbn [Mambo.key Mambo.freq probe_of].
  unfold probe_key, probe_freq.
  intros [Hk|[Hf|Hf]] [H1 H2].
  - apply H2. unfold absent in Hk. unfold ini.Key. now rewrite Hk.
  - rewrite (Int_absent _ _ Hf) in H1. discriminate H1.
  - rewrite (Int_invalid_syntax _ _ Hf) in H1. discriminate H1.
Qed.

(** The README's file: three commands, all within the invariant. *)
Lemma configure_commands_witness :
  exists cfg cmds,
    Mambo.configure (fs_with "mambo.cfg" readme_cfg) "mambo.cfg"
    = (Return (cfg, cmds), []) /\
    map Mambo.key cmds =
      ["mysql.server.query1"; "mysql.server.query2"; "mysql.server.query3"] /\
    map Mambo.freq cmds = [1000; 500; 3000].
Proof.
  destruct (configure_commands (fs_with "mambo.cfg" readme_cfg) "mambo.cfg"
              readme_cfg eq_refl) as (cfg & cmds & H & Hc & _).
  exists cfg, cmds. split; [exact H|]. rewrite Hc. split; reflexivity.
Defined.

(** C6, as the specification states it, fails: a section that names a
    query and nothing else loads, and its command has an empty name and
    an interval of 0. *)
Lemma configure_probe_invariant_fails :
  exists cfg c,
    Mambo.configure (fs_with "mambo.cfg" cfg_bare_probe) "mambo.cfg"
    = (Return (cfg, [c]), []) /\
    Mambo.key c = "" /\ Mambo.freq c = 0 /\ ~ probe_invariant c.
Proof.
  eexists _, _. split; [reflexivity|]. cbn.
  split; [reflexivity|]. split; [reflexivity|].
  unfold probe_invariant. cbn. intros [H _]. discriminate H.
Qed.

(** C7.  When the configuration file cannot be loaded, [main] ends in
    [os.Exit(1)] right after the critical log entry: no controller has
    been started and no message is dispatched, whatever is waiting. *)
Theorem main_exits_when_load_fails fs cfg incoming err :
  fs cfg = inr err ->
  Mambo.main fs cfg incoming =
    (Exit 1, [Log NOTICE "Mambo collector started";
              Log NOTICE ("Loading configuration from " ++ cfg);
              Log CRITICAL (Error err)]) /\
  MamboSrc.main fs cfg incoming =
    (Exit 1, [Log NOTICE "Mambo collector started";
              Log NOTICE ("Loading configuration from " ++ cfg);
              Log CRITICAL (Error err)]).
Proof.
  intros H. unfold Mambo.main, MamboSrc.main, Mambo.configure, MamboSrc.configure.
  rewrite H. cbn. split; reflexivity.
Qed.

Lemma main_exits_when_load_fails_witness :
  Mambo.main fs_empty "mambo.cfg" [(statsd_ok, "mysql.server.query1:1")] =
    (Exit 1, [Log NOTICE "Mambo collector started";
              Log NOTICE "Loading configuration from mambo.cfg";
              Log CRITICAL "open mambo.cfg: no such file or directory"]).
Proof.
  exact (proj1 (main_exits_when_load_fails fs_empty "mambo.cfg"
                  [(statsd_ok, "mysql.server.query1:1")] _ eq_refl)).
Defined.

(** ** The wire format of the [results] channel *)

(** C4, as the code has it.  For a name that holds no [':'] and a value
    in the range of [int64], decoding the encoded Result gives the name
    and the value back, without error. *)
Theorem decode_encode name v :
  occurs ":" name = false ->
  in_int64 v ->
  decode (encode name v) = ret (name, (v, None)).
Proof.
  intros Hn Hv. unfold encode.
  pose proof (ParseInt_FormatInt v Hv) as Hp.
  rewrite decode_message, Hp;
    [reflexivity | assumption | eapply ParseInt_ok_no_colon; eassumption].
Qed.

Lemma decode_encode_witness :
  decode (encode "mysql.server.query1" 42)
  = ret ("mysql.server.query1", (42, None)).
Proof.
  apply decode_encode; [reflexivity | unfold in_int64; lia].
Defined.

(** C4, as the specification states it, fails for a name with a [':']
    in it: the name comes back cut at its first [':'] and the rest of it
    is taken for the value. *)
Lemma decode_encode_colon_in_name :
  decode (encode "a:b" 42)
  = ret ("a", (0, Some (NumError "ParseInt" "b" ErrSyntax))) /\
  decode (encode "a:b" 42) <> ret ("a:b", (42, None)).
Proof. split; [reflexivity | discriminate]. Qed.

(** ** The dispatcher *)

(** With a client at hand, [statsdSender] is the decoding followed by
    the increment, and the client is closed at the end. *)
Lemma Mambo_statsdSender_decode w config msg :
  statsd_NewClient w (Mambo.statsdURIBuilder config) "" = None ->
  Mambo.statsdSender w config msg =
  defer (emit SinkClose)
    ('(key, (value, err)) <- decode msg ;;
     log_if_err err ;;
     err <- Client_Inc w (Some (ClientHandle (Mambo.statsdURIBuilder config)))
              key value 1%Q ;;
     log_if_err err).
Proof.
  intros Hc. unfold Mambo.statsdSender, statsd_newClient, decode.
  rewrite Hc. cbn [log_if_err defer_iface Client_Close].
  destruct (strings.Split msg ":") as [|a [|b l]]; try reflexivity.
  cbn -[strconv.ParseInt]. destruct (strconv.ParseInt b) as [value [e|]];
    cbn; destruct (client_Inc w a value 1%Q); reflexivity.
Qed.

Lemma MamboSrc_statsdSender_decode w config msg :
  statsd_NewClient w (MamboSrc.statsdUriBuilder config) "" = None ->
  MamboSrc.statsdSender w config msg =
  defer (emit SinkClose)
    ('(key, (value, err)) <- decode msg ;;
     log_if_err err ;;
     emit (Log INFO ("Statsd data flushed: " ++ msg)) ;;
     _ <- Client_Inc w (Some (ClientHandle (MamboSrc.statsdUriBuilder config)))
            key value 1%Q ;;
     ret tt).
Proof.
  intros Hc. unfold MamboSrc.statsdSender, statsd_newClient, decode.
  rewrite Hc. cbn [log_if_err defer_iface Client_Close].
  destruct (strings.Split msg ":") as [|a [|b l]]; try reflexivity.
  cbn -[strconv.ParseInt]. destruct (strconv.ParseInt b) as [value [e|]];
    reflexivity.
Qed.

(** C8.  With a client at hand, a message [name:text] whose name holds
    no [':'] and whose text converts to the integer [v] makes
    [statsdSender] return after exactly one increment, of [name] by [v]
    at rate 1.0; in [mambo.go] and in [src/mambo.go] alike. *)
Theorem statsdSender_increment w config config' name text v :
  (forall addr, statsd_NewClient w addr "" = None) ->
  occurs ":" name = false ->
  strconv.ParseInt text = (v, None) ->
  (fst (Mambo.statsdSender w config (message name text)) = Return tt /\
   increments (snd (Mambo.statsdSender w config (message name text)))
   = [(name, v, 1%Q)]) /\
  (fst (MamboSrc.statsdSender w config' (message name text)) = Return tt /\
   increments (snd (MamboSrc.statsdSender w config' (message name text)))
   = [(name, v, 1%Q)]).
Proof.
  intros Hc Hn Hp.
  pose proof (ParseInt_ok_no_colon _ _ Hp) as Ht.
  rewrite Mambo_statsdSender_decode, MamboSrc_statsdSender_decode by apply Hc.
  rewrite decode_message, Hp by assumption.
  split.
  - destruct (client_Inc w name v 1%Q) eqn:E; cbn; rewrite ?E; cbn;
      split; reflexivity.
  - cbn. split; reflexivity.
Qed.

Lemma statsdSender_increment_witness :
  increments (snd (Mambo.statsdSender statsd_ok local_configuration
                     (message "mysql.server.query1" "42")))
  = [("mysql.server.query1", 42, 1%Q)].
Proof.
  apply (statsdSender_increment statsd_ok local_configuration
           tcp_configuration "mysql.server.query1" "42" 42);
    [intros addr; reflexivity | reflexivity | reflexivity].
Defined.

(** Without a [':'] in the message the second index expression is out
    of range: the dispatcher panics with the client open, before any
    increment. *)
Lemma Mambo_statsdSender_no_separator w config msg :
  statsd_NewClient w (Mambo.statsdURIBuilder config) "" = None ->
  occurs ":" msg = false ->
  Mambo.statsdSender w config msg
  = (Panic "runtime error: index out of range", [SinkClose]).
Proof.
  intros Hc Hm. rewrite Mambo_statsdSender_decode by assumption.
  unfold decode. rewrite Split_no_sep by assumption. reflexivity.
Qed.

(** Without a client the dispatcher panics at its [defer], whatever the
    message. *)
Lemma Mambo_statsdSender_no_client w config msg e :
  statsd_NewClient w (Mambo.statsdURIBuilder config) "" = Some e ->
  Mambo.statsdSender w config msg = (Panic nil_deref, [Log ERROR (Error e)]).
Proof.
  intros Hc. unfold Mambo.statsdSender, statsd_newClient. now rewrite Hc.
Qed.

(** A value that is not an integer is logged and sent as an increment
    by 0. *)
Lemma Mambo_statsdSender_bad_value config :
  Mambo.statsdSender statsd_ok config "q1:x"
  = (Return tt,
     [Log ERROR (Error (NumError "ParseInt" "x" ErrSyntax));
      SinkInc "q1" 0 1%Q; SinkClose]).
Proof. reflexivity. Qed.

(** C2 fails on the code.  A message without [':'] makes [statsdSender]
    panic instead of logging, in [mambo.go] and in [src/mambo.go] alike:
    the loop of [main] ends there and the message after it is never
    dispatched.  A sink whose client cannot be created does the same to
    any message: the error is logged and the nil client is used. *)
Theorem statsdSender_panics config config' :
  Mambo.statsdSender statsd_ok config "q1"
  = (Panic "runtime error: index out of range", [SinkClose]) /\
  MamboSrc.statsdSender statsd_ok config' "q1"
  = (Panic "runtime error: index out of range", [SinkClose]) /\
  fst (Mambo.main (fs_with "mambo.cfg" readme_cfg) "mambo.cfg"
         [(statsd_ok, "q1"); (statsd_ok, "q1:1")])
  = Panic "runtime error: index out of range" /\
  increments (snd (Mambo.main (fs_with "mambo.cfg" readme_cfg) "mambo.cfg"
                     [(statsd_ok, "q1"); (statsd_ok, "q1:1")]))
  = [] /\
  Mambo.statsdSender statsd_unreachable config "q1:1"
  = (Panic nil_deref, [Log ERROR "lookup statsd: no such host"]).
Proof.
  split; [now apply Mambo_statsdSender_no_separator|].
  split; [now rewrite MamboSrc_statsdSender_decode|].
  split; [reflexivity|]. split; [reflexivity|].
  exact (Mambo_statsdSender_no_client statsd_unreachable config _ _ eq_refl).
Qed.

(** The same two messages the other way round: the first is dispatched,
    then the loop ends. *)
Lemma main_dispatches_until_panic :
  Mambo.main (fs_with "mambo.cfg" readme_cfg) "mambo.cfg"
    [(statsd_ok, "q1:1"); (statsd_ok, "q1")]
  = (Panic "runtime error: index out of range",
     [Log NOTICE "Mambo collector started";
      Log NOTICE "Loading configuration from mambo.cfg";
      Spawn "mysql.server.query1" "SELECT 1" 1000;
      Spawn "mysql.server.query2" "SELECT 2" 500;
      Spawn "mysql.server.query3" "SELECT 3" 3000;
      Log NOTICE "Data collector running";
      SinkInc "q1" 1 1%Q; SinkClose; SinkClose]).
Proof. reflexivity. Qed.

(** ** The query executor *)

(** When the connection, the ping and the preparation succeed and the
    scan fails, the error is logged and the worker goes on: it sends the
    key with an empty value. *)
Lemma Mambo_mysqlWorker_scan_error w config cmd e :
  sql_Open w "mysql" (Mambo.mysqlURIBuilder config) = None ->
  db_Ping w = None ->
  db_Prepare w (Mambo.query cmd) = None ->
  row_Scan w (Mambo.query cmd) = inr e ->
  Mambo.mysqlWorker w config cmd
  = (Return tt,
     [Log ERROR (Error e); Send (Mambo.key cmd ++ ":"); StmtClose; DbClose]).
Proof.
  intros Ho Hp Hq Hs. unfold Mambo.mysqlWorker, sql_open.
  rewrite Ho. cbn -[fmt.Sprint]. rewrite Hp, Hq. cbn -[fmt.Sprint].
  rewrite Hs. cbn -[fmt.Sprint].
  change (fmt.Sprint _) with (message (Mambo.key cmd) "").
  now rewrite message_eq.
Qed.

(** When the connection cannot be opened the error is logged and the
    worker goes on with a nil handle: it panics at the ping. *)
Lemma Mambo_mysqlWorker_open_error w config cmd e :
  sql_Open w "mysql" (Mambo.mysqlURIBuilder config) = Some e ->
  Mambo.mysqlWorker w config cmd = (Panic nil_deref, [Log ERROR (Error e)]).
Proof.
  intros Ho. unfold Mambo.mysqlWorker, sql_open. now rewrite Ho.
Qed.

(** When the preparation fails the error is logged and the worker goes
    on with a nil statement: it panics at the query. *)
Lemma Mambo_mysqlWorker_prepare_error w config cmd e :
  sql_Open w "mysql" (Mambo.mysqlURIBuilder config) = None ->
  db_Ping w = None ->
  db_Prepare w (Mambo.query cmd) = Some e ->
  Mambo.mysqlWorker w config cmd
  = (Panic nil_deref, [Log ERROR (Error e); DbClose]).
Proof.
  intros Ho Hp Hq. unfold Mambo.mysqlWorker, sql_open.
  rewrite Ho. cbn -[fmt.Sprint]. rewrite Hp, Hq. reflexivity.
Qed.

(** When nothing fails, one message is sent: the key and the scalar. *)
Lemma Mambo_mysqlWorker_ok w config cmd v :
  sql_Open w "mysql" (Mambo.mysqlURIBuilder config) = None ->
  db_Ping w = None ->
  db_Prepare w (Mambo.query cmd) = None ->
  row_Scan w (Mambo.query cmd) = inl v ->
  Mambo.mysqlWorker w config cmd
  = (Return tt, [Send (message (Mambo.key cmd) v); StmtClose; DbClose]).
Proof.
  intros Ho Hp Hq Hs. unfold Mambo.mysqlWorker, sql_open.
  rewrite Ho. cbn -[fmt.Sprint]. rewrite Hp, Hq. cbn -[fmt.Sprint].
  rewrite Hs. reflexivity.
Qed.

(** C1 fails on the code.  A query that yields no row makes the scan
    fail; [mysqlWorker] logs the error and still puts a message on the
    channel, the key with an empty value, and returns nothing to its
    caller.  In [mambo.go] and in [src/mambo.go] alike. *)
Theorem mysqlWorker_sends_after_scan_error config cmd config' cmd' :
  Mambo.mysqlWorker sql_no_rows config cmd
  = (Return tt,
     [Log ERROR "sql: no rows in result set"; Send (Mambo.key cmd ++ ":");
      StmtClose; DbClose]) /\
  sent (snd (Mambo.mysqlWorker sql_no_rows config cmd))
  = [Mambo.key cmd ++ ":"] /\
  sent (snd (MamboSrc.mysqlWorker sql_no_rows config' cmd'))
  = [MamboSrc.key cmd' ++ ":"].
Proof.
  assert (H : Mambo.mysqlWorker sql_no_rows config cmd
              = (Return tt,
                 [Log ERROR "sql: no rows in result set";
                  Send (Mambo.key cmd ++ ":"); StmtClose; DbClose]))
    by exact (Mambo_mysqlWorker_scan_error sql_no_rows config cmd
                (ExtError "sql: no rows in result set")
                eq_refl eq_refl eq_refl eq_refl).
  split; [exact H|]. split; [now rewrite H|].
  unfold MamboSrc.mysqlWorker. cbn -[fmt.Sprint].
  change (fmt.Sprint _) with (message (MamboSrc.key cmd') "").
  now rewrite message_eq.
Qed.

(** One tick end to end: the worker's message for the scalar [1] makes
    the dispatcher increment the key by 1. *)
Lemma tick_end_to_end :
  sent (snd (Mambo.mysqlWorker (sql_ok "1") local_configuration
               {| Mambo.key := "q1"; Mambo.query := "SELECT 1";
                  Mambo.freq := 1000 |}))
  = ["q1:1"] /\
  increments (snd (Mambo.statsdSender statsd_ok local_configuration "q1:1"))
  = [("q1", 1, 1%Q)].
Proof. split; reflexivity. Qed.

(** A command whose interval is not positive makes its controller panic
    at the ticker, before any tick. *)
Lemma controller_needs_positive_freq cnf k q ticks :
  Mambo.controller {| Mambo.key := k; Mambo.query := q; Mambo.freq := 0 |}
    cnf ticks
  = (Panic "non-positive interval for NewTicker",
     [Log NOTICE ("Query loaded: " ++ q)]).
Proof. reflexivity. Qed.

(** ** Further properties of the dispatcher *)

Lemma Split_nonempty sep s : exists x l, strings.Split s sep = x :: l.
Proof.
  induction s as [|c s (x & l & IH)]; cbn; [now eexists _, _|].
  destruct (Ascii.eqb c sep); [now eexists _, _|].
  rewrite IH. now eexists _, _.
Qed.

(** A string with a separator in it splits in two pieces at least. *)
Lemma Split_two sep s :
  occurs sep s = true -> exists x y l, strings.Split s sep = x :: y :: l.
Proof.
  induction s as [|c s IH]; cbn; [discriminate|].
  destruct (Ascii.eqb c sep); cbn.
  - intros _. destruct (Split_nonempty sep s) as (x & l & ->).
    now eexists _, _, _.
  - intros H. destruct (IH H) as (x & y & l & ->). now eexists _, _, _.
Qed.

Lemma occurs_app c a b : occurs c (a ++ b) = occurs c a || occurs c b.
Proof.
  induction a as [|x a IH]; cbn; [reflexivity|].
  now rewrite IH, orb_assoc.
Qed.

Lemma occurs_message key result : occurs ":" (message key result) = true.
Proof.
  rewrite message_eq, occurs_app. cbn. apply orb_true_r.
Qed.

(** What the body of [statsdSender] does once the message is split in a
    key and a value text, with a client at hand. *)
Lemma Mambo_statsdSender_split w config msg k text l :
  client_ok w ->
  strings.Split msg ":" = k :: text :: l ->
  Mambo.statsdSender w config msg =
  (Return tt,
   (match snd (strconv.ParseInt text) with
    | Some e => [Log ERROR (Error e)]
    | None => []
    end ++
    SinkInc k (fst (strconv.ParseInt text)) 1%Q ::
    match client_Inc w k (fst (strconv.ParseInt text)) 1%Q with
    | Some e => [Log ERROR (Error e)]
    | None => []
    end ++ [SinkClose])%list).
Proof.
  intros Hc Hs. rewrite Mambo_statsdSender_decode by apply Hc.
  unfold decode. rewrite Hs. cbn -[strconv.ParseInt].
  destruct (strconv.ParseInt text) as [v [e|]]; cbn;
    destruct (client_Inc w k v 1%Q); reflexivity.
Qed.

Lemma MamboSrc_statsdSender_split w config msg k text l :
  client_ok w ->
  strings.Split msg ":" = k :: text :: l ->
  MamboSrc.statsdSender w config msg =
  (Return tt,
   (match snd (strconv.ParseInt text) with
    | Some e => [Log ERROR (Error e)]
    | None => []
    end ++
    [Log INFO ("Statsd data flushed: " ++ msg);
     SinkInc k (fst (strconv.ParseInt text)) 1%Q; SinkClose])%list).
Proof.
  intros Hc Hs. rewrite MamboSrc_statsdSender_decode by apply Hc.
  unfold decode. rewrite Hs. cbn -[strconv.ParseInt].
  destruct (strconv.ParseInt text) as [v [e|]]; reflexivity.
Qed.

(** X1.  The address of the sink is the host, a [':'] and the port in
    decimal, with nothing between them; in [mambo.go] and in
    [src/mambo.go] alike. *)
Theorem statsdURIBuilder_contract :
  (forall c : Mambo.configuration,
     Mambo.statsdURIBuilder c =
     Mambo.statsdHost c ++ ":" ++ strconv.FormatInt (Mambo.statsdPort c)) /\
  (forall c : MamboSrc.configuration,
     MamboSrc.statsdUriBuilder c =
     MamboSrc.statsd_host c ++ ":" ++ strconv.FormatInt (MamboSrc.statsd_port c)).
Proof.
  split; intros c;
    [unfold Mambo.statsdURIBuilder | unfold MamboSrc.statsdUriBuilder];
    unfold fmt.Sprint; cbn; now rewrite append_nil_r.
Qed.

(** X2.  A value text that is not an integer does not stop the
    increment: the error of the conversion is logged and the key is
    incremented by the 0 the conversion returned. *)
Theorem statsdSender_invalid_value w config name text f n :
  client_ok w ->
  occurs ":" name = false ->
  occurs ":" text = false ->
  snd (strconv.ParseInt text) = Some (NumError f n ErrSyntax) ->
  fst (Mambo.statsdSender w config (message name text)) = Return tt /\
  increments (snd (Mambo.statsdSender w config (message name text)))
  = [(name, 0, 1%Q)] /\
  error_logs (snd (Mambo.statsdSender w config (message name text)))
  = (Error (NumError f n ErrSyntax) ::
     match client_Inc w name 0 1%Q with
     | Some e => [Error e]
     | None => []
     end)%list.
Proof.
  intros Hc Hn Ht He.
  pose proof (ParseInt_syntax_zero _ _ _ He) as Hz.
  rewrite (Mambo_statsdSender_split w config _ name text [] Hc)
    by (rewrite message_eq, Split_app, Split_no_sep by assumption; reflexivity).
  rewrite He, Hz. cbn.
  destruct (client_Inc w name 0 1%Q); repeat split; reflexivity.
Qed.

Lemma statsdSender_invalid_value_witness :
  increments (snd (Mambo.statsdSender statsd_ok local_configuration
                     (message "q1" "x")))
  = [("q1", 0, 1%Q)].
Proof.
  apply (statsdSender_invalid_value statsd_ok local_configuration
           "q1" "x" "ParseInt" "x");
    [intros addr; reflexivity | reflexivity | reflexivity | reflexivity].
Defined.

(** X3.  The split is at every [':'] and only the first two pieces are
    used: whatever follows a second [':'] in the message is dropped and
    the increment is that of the first value. *)
Theorem statsdSender_ignores_further_fields w config config' name text v rest :
  client_ok w ->
  occurs ":" name = false ->
  strconv.ParseInt text = (v, None) ->
  increments (snd (Mambo.statsdSender w config
                     (name ++ ":" ++ text ++ ":" ++ rest)))
  = [(name, v, 1%Q)] /\
  increments (snd (MamboSrc.statsdSender w config'
                     (name ++ ":" ++ text ++ ":" ++ rest)))
  = [(name, v, 1%Q)].
Proof.
  intros Hc Hn Hp.
  pose proof (ParseInt_ok_no_colon _ _ Hp) as Ht.
  destruct (Split_nonempty ":" rest) as (x & l & Hr).
  assert (Hs : strings.Split (name ++ ":" ++ text ++ ":" ++ rest) ":"
               = name :: text :: x :: l).
  { change (name ++ ":" ++ text ++ ":" ++ rest)
      with (name ++ String ":" (text ++ String ":" rest)).
    now rewrite !Split_app, Hr by assumption. }
  rewrite (Mambo_statsdSender_split w config _ _ _ _ Hc Hs).
  rewrite (MamboSrc_statsdSender_split w config' _ _ _ _ Hc Hs).
  rewrite Hp. cbn. destruct (client_Inc w name v 1%Q); split; reflexivity.
Qed.

Lemma statsdSender_ignores_further_fields_witness :
  increments (snd (Mambo.statsdSender statsd_ok local_configuration "k:1:2"))
  = [("k", 1, 1%Q)].
Proof.
  apply (statsdSender_ignores_further_fields statsd_ok local_configuration
           tcp_configuration "k" "1" 1 "2");
    [intros addr; reflexivity | reflexivity | reflexivity].
Defined.

(** X4.  Once the client is created it is closed exactly once, as the
    last thing [statsdSender] does, whether the message is dispatched or
    the function panics on it; in [mambo.go] and in [src/mambo.go]
    alike. *)
Theorem statsdSender_closes_client w config config' msg :
  client_ok w ->
  (exists t, snd (Mambo.statsdSender w config msg) = (t ++ [SinkClose])%list /\
             filter is_SinkClose t = []) /\
  (exists t, snd (MamboSrc.statsdSender w config' msg) = (t ++ [SinkClose])%list /\
             filter is_SinkClose t = []).
Proof.
  intros Hc. destruct (strings.Split msg ":") as [|k [|text l]] eqn:Hs.
  - rewrite Mambo_statsdSender_decode, MamboSrc_statsdSender_decode by apply Hc.
    unfold decode. rewrite Hs. split; exists []; split; reflexivity.
  - rewrite Mambo_statsdSender_decode, MamboSrc_statsdSender_decode by apply Hc.
    unfold decode. rewrite Hs. split; exists []; split; reflexivity.
  - rewrite (Mambo_statsdSender_split w config _ _ _ _ Hc Hs).
    rewrite (MamboSrc_statsdSender_split w config' _ _ _ _ Hc Hs).
    destruct (snd (strconv.ParseInt text));
      destruct (client_Inc w k (fst (strconv.ParseInt text)) 1%Q); cbn;
      split;
      match goal with
      | |- exists t, ?l = _ /\ _ => exists (removelast l); split; reflexivity
      end.
Qed.

Lemma statsdSender_closes_client_witness :
  exists t,
    snd (Mambo.statsdSender statsd_ok local_configuration "q1")
    = (t ++ [SinkClose])%list /\ filter is_SinkClose t = [].
Proof.
  apply (statsdSender_closes_client statsd_ok local_configuration
           tcp_configuration "q1").
  intros addr. reflexivity.
Defined.

(** X5.  When the send fails, [statsdSender] still returns; [mambo.go]
    logs the error of [client.Inc] after the increment, [src/mambo.go]
    drops it and logs no error at all. *)
Theorem statsdSender_send_failure w config config' name text v e :
  client_ok w ->
  occurs ":" name = false ->
  strconv.ParseInt text = (v, None) ->
  client_Inc w name v 1%Q = Some e ->
  Mambo.statsdSender w config (message name text)
  = (Return tt, [SinkInc name v 1%Q; Log ERROR (Error e); SinkClose]) /\
  fst (MamboSrc.statsdSender w config' (message name text)) = Return tt /\
  error_logs (snd (MamboSrc.statsdSender w config' (message name text))) = [].
Proof.
  intros Hc Hn Hp He.
  pose proof (ParseInt_ok_no_colon _ _ Hp) as Ht.
  assert (Hs : strings.Split (message name text) ":" = [name; text])
    by (rewrite message_eq, Split_app, Split_no_sep by assumption; reflexivity).
  rewrite (Mambo_statsdSender_split w config _ _ _ _ Hc Hs).
  rewrite (MamboSrc_statsdSender_split w config' _ _ _ _ Hc Hs).
  rewrite Hp. cbn. rewrite He. repeat split; reflexivity.
Qed.

Lemma statsdSender_send_failure_witness :
  Mambo.statsdSender statsd_send_fails local_configuration (message "q1" "7")
  = (Return tt,
     [SinkInc "q1" 7 1%Q; Log ERROR "write udp: connection refused";
      SinkClose]).
Proof.
  apply (statsdSender_send_failure statsd_send_fails local_configuration
           tcp_configuration "q1" "7" 7
           (ExtError "write udp: connection refused"));
    [intros addr; reflexivity | reflexivity | reflexivity | reflexivity].
Defined.

(** ** Further properties of the query executor *)

(** With a handle and a statement, [mysqlWorker] runs to its end: the
    errors of the ping and of the scan are logged on the way and the
    message is sent with what [result] holds. *)
Lemma Mambo_mysqlWorker_run w config cmd :
  db_ok w (Mambo.mysqlURIBuilder config) (Mambo.query cmd) ->
  Mambo.mysqlWorker w config cmd =
  (Return tt,
   (log_of (db_Ping w) ++
    match row_Scan w (Mambo.query cmd) with
    | inl _ => []
    | inr e => [Log ERROR (Error e)]
    end ++
    [Send (message (Mambo.key cmd) (scalar_or_empty w (Mambo.query cmd)));
     StmtClose; DbClose])%list).
Proof.
  intros [Ho Hq]. unfold Mambo.mysqlWorker, sql_open, scalar_or_empty.
  rewrite Ho. cbn -[fmt.Sprint]. rewrite Hq.
  destruct (db_Ping w); cbn -[fmt.Sprint];
    destruct (row_Scan w (Mambo.query cmd)); reflexivity.
Qed.

Lemma MamboSrc_mysqlWorker_run w config cmd :
  db_ok w (MamboSrc.mysqlUriBuilder config) (MamboSrc.query cmd) ->
  MamboSrc.mysqlWorker w config cmd =
  (Return tt,
   (log_of (db_Ping w) ++
    match row_Scan w (MamboSrc.query cmd) with
    | inl _ => []
    | inr e => [Log ERROR (Error e)]
    end ++
    [Log INFO ("Data recieved from MySQL server: " ++
               message (MamboSrc.key cmd)
                 (scalar_or_empty w (MamboSrc.query cmd)));
     Send (message (MamboSrc.key cmd) (scalar_or_empty w (MamboSrc.query cmd)));
     StmtClose; DbClose])%list).
Proof.
  intros [Ho Hq]. unfold MamboSrc.mysqlWorker, sql_open, scalar_or_empty.
  rewrite Ho. cbn -[fmt.Sprint]. rewrite Hq.
  destruct (db_Ping w); cbn -[fmt.Sprint];
    destruct (row_Scan w (MamboSrc.query cmd)); reflexivity.
Qed.

(** Without a handle it panics at the ping, without a statement at the
    query; the handle it has is closed. *)
Lemma Mambo_mysqlWorker_no_statement w config cmd e :
  sql_Open w "mysql" (Mambo.mysqlURIBuilder config) = None ->
  db_Prepare w (Mambo.query cmd) = Some e ->
  Mambo.mysqlWorker w config cmd =
  (Panic nil_deref, (log_of (db_Ping w) ++ [Log ERROR (Error e); DbClose])%list).
Proof.
  intros Ho Hq. unfold Mambo.mysqlWorker, sql_open.
  rewrite Ho. cbn -[fmt.Sprint]. rewrite Hq.
  destruct (db_Ping w); reflexivity.
Qed.

Lemma MamboSrc_mysqlWorker_no_statement w config cmd e :
  sql_Open w "mysql" (MamboSrc.mysqlUriBuilder config) = None ->
  db_Prepare w (MamboSrc.query cmd) = Some e ->
  MamboSrc.mysqlWorker w config cmd =
  (Panic nil_deref, (log_of (db_Ping w) ++ [Log ERROR (Error e); DbClose])%list).
Proof.
  intros Ho Hq. unfold MamboSrc.mysqlWorker, sql_open.
  rewrite Ho. cbn -[fmt.Sprint]. rewrite Hq.
  destruct (db_Ping w); reflexivity.
Qed.

Lemma MamboSrc_mysqlWorker_open_error w config cmd e :
  sql_Open w "mysql" (MamboSrc.mysqlUriBuilder config) = Some e ->
  MamboSrc.mysqlWorker w config cmd = (Panic nil_deref, [Log ERROR (Error e)]).
Proof.
  intros Ho. unfold MamboSrc.mysqlWorker, sql_open. now rewrite Ho.
Qed.

Lemma sent_app t1 t2 : sent (t1 ++ t2) = (sent t1 ++ sent t2)%list.
Proof.
  induction t1 as [|[] t1 IH]; cbn; rewrite ?IH; reflexivity.
Qed.

Lemma sent_log_of err : sent (log_of err) = [].
Proof. now destruct err. Qed.

(** X6.  When the data base opens and the statement is prepared,
    [mysqlWorker] returns and sends exactly one message, the key and
    what the scan left in [result]: the scalar, or nothing when the scan
    failed.  A failed ping changes nothing to that. *)
Theorem mysqlWorker_sends_once w config cmd :
  db_ok w (Mambo.mysqlURIBuilder config) (Mambo.query cmd) ->
  fst (Mambo.mysqlWorker w config cmd) = Return tt /\
  sent (snd (Mambo.mysqlWorker w config cmd))
  = [Mambo.key cmd ++ ":" ++ scalar_or_empty w (Mambo.query cmd)].
Proof.
  intros H. rewrite (Mambo_mysqlWorker_run _ _ _ H). cbn [fst snd].
  split; [reflexivity|].
  rewrite !sent_app, sent_log_of, message_eq.
  destruct (row_Scan w (Mambo.query cmd)); reflexivity.
Qed.

Lemma mysqlWorker_sends_once_witness :
  sent (snd (Mambo.mysqlWorker (sql_ping_fails "7") local_configuration query1))
  = ["mysql.server.query1:7"].
Proof.
  apply (mysqlWorker_sends_once (sql_ping_fails "7") local_configuration query1).
  split; reflexivity.
Defined.

(** X7.  When the data base does not open, or opens and does not
    prepare the statement, [mysqlWorker] panics on the nil handle it
    goes on with and sends nothing. *)
Theorem mysqlWorker_panics_on_nil_handle w config cmd e :
  sql_Open w "mysql" (Mambo.mysqlURIBuilder config) = Some e \/
  (sql_Open w "mysql" (Mambo.mysqlURIBuilder config) = None /\
   db_Prepare w (Mambo.query cmd) = Some e) ->
  fst (Mambo.mysqlWorker w config cmd) = Panic nil_deref /\
  sent (snd (Mambo.mysqlWorker w config cmd)) = [] /\
  In (Log ERROR (Error e)) (snd (Mambo.mysqlWorker w config cmd)).
Proof.
  intros [Ho|[Ho Hq]].
  - rewrite (Mambo_mysqlWorker_open_error _ _ _ _ Ho).
    repeat split; [now left].
  - rewrite (Mambo_mysqlWorker_no_statement _ _ _ _ Ho Hq). cbn [fst snd].
    split; [reflexivity|]. split.
    + now rewrite sent_app, sent_log_of.
    + apply in_or_app. right. now left.
Qed.

Lemma mysqlWorker_panics_on_nil_handle_witness :
  fst (Mambo.mysqlWorker sql_down local_configuration query1) = Panic nil_deref /\
  sent (snd (Mambo.mysqlWorker sql_down local_configuration query1)) = [].
Proof.
  destruct (mysqlWorker_panics_on_nil_handle sql_down local_configuration
              query1 (ExtError "dial tcp: connection refused")
              (or_introl eq_refl)) as (H1 & H2 & _).
  split; [exact H1 | exact H2].
Defined.

(** X8.  A data base that was opened is closed exactly once, as the last
    thing [mysqlWorker] does, on its return as on its panic; the
    statement is closed once when there is one. *)
Theorem mysqlWorker_closes_handles w config cmd :
  sql_Open w "mysql" (Mambo.mysqlURIBuilder config) = None ->
  exists t,
    snd (Mambo.mysqlWorker w config cmd) = (t ++ [DbClose])%list /\
    filter is_DbClose t = [] /\
    length (filter is_StmtClose t) =
    match db_Prepare w (Mambo.query cmd) with
    | None => 1%nat
    | Some _ => 0%nat
    end.
Proof.
  intros Ho. destruct (db_Prepare w (Mambo.query cmd)) as [e|] eqn:Hq.
  - rewrite (Mambo_mysqlWorker_no_statement _ _ _ _ Ho Hq).
    destruct (db_Ping w); cbn;
      match goal with
      | |- exists t, ?l = _ /\ _ => exists (removelast l); repeat split
      end.
  - rewrite (Mambo_mysqlWorker_run _ _ _ (conj Ho Hq)).
    destruct (db_Ping w), (row_Scan w (Mambo.query cmd)); cbn;
      match goal with
      | |- exists t, ?l = _ /\ _ => exists (removelast l); repeat split
      end.
Qed.

Lemma mysqlWorker_closes_handles_witness :
  exists t,
    snd (Mambo.mysqlWorker sql_no_rows local_configuration query1)
    = (t ++ [DbClose])%list /\
    filter is_DbClose t = [] /\ length (filter is_StmtClose t) = 1%nat.
Proof.
  apply (mysqlWorker_closes_handles sql_no_rows local_configuration query1).
  reflexivity.
Defined.

(** What [mysqlWorker] sends is a message with a [':'] in it. *)
Lemma Mambo_mysqlWorker_sent w config cmd m :
  In m (sent (snd (Mambo.mysqlWorker w config cmd))) ->
  m = message (Mambo.key cmd) (scalar_or_empty w (Mambo.query cmd)).
Proof.
  destruct (sql_Open w "mysql" (Mambo.mysqlURIBuilder config)) as [e|] eqn:Ho.
  - rewrite (Mambo_mysqlWorker_open_error _ _ _ _ Ho). intros [].
  - destruct (db_Prepare w (Mambo.query cmd)) as [e|] eqn:Hq.
    + rewrite (Mambo_mysqlWorker_no_statement _ _ _ _ Ho Hq). cbn [snd].
      rewrite sent_app, sent_log_of. intros [].
    + rewrite (Mambo_mysqlWorker_run _ _ _ (conj Ho Hq)). cbn [snd].
      rewrite !sent_app, sent_log_of.
      destruct (row_Scan w (Mambo.query cmd)); cbn; intros [<-|[]]; reflexivity.
Qed.

(** X9.  Whatever [mysqlWorker] sends, [statsdSender] can index: with a
    client at hand the dispatcher returns on every message a worker
    produces, so the index panic cannot come from the program's own
    messages. *)
Theorem worker_message_is_dispatched w config cmd sw sconfig m :
  client_ok sw ->
  In m (sent (snd (Mambo.mysqlWorker w config cmd))) ->
  fst (Mambo.statsdSender sw sconfig m) = Return tt.
Proof.
  intros Hc Hm. apply Mambo_mysqlWorker_sent in Hm. subst m.
  destruct (Split_two ":" _ (occurs_message (Mambo.key cmd)
              (scalar_or_empty w (Mambo.query cmd)))) as (x & y & l & Hs).
  now rewrite (Mambo_statsdSender_split sw sconfig _ _ _ _ Hc Hs).
Qed.

Lemma worker_message_is_dispatched_witness :
  fst (Mambo.statsdSender statsd_ok local_configuration
         "mysql.server.query1:") = Return tt.
Proof.
  apply (worker_message_is_dispatched sql_no_rows local_configuration query1
           statsd_ok local_configuration "mysql.server.query1:").
  - intros addr. reflexivity.
  - left. reflexivity.
Defined.



(** X11.  The worker of [src/mambo.go] ends as the one of [mambo.go]
    does, sends the same messages and logs the same errors, on the same
    configuration, command and data base; it only adds a line at level
    Info before the message. *)
Theorem mysqlWorker_same_in_both w config cmd :
  fst (MamboSrc.mysqlWorker w (to_src_configuration config) (to_src_command cmd))
  = fst (Mambo.mysqlWorker w config cmd) /\
  sent (snd (MamboSrc.mysqlWorker w (to_src_configuration config)
               (to_src_command cmd)))
  = sent (snd (Mambo.mysqlWorker w config cmd)) /\
  error_logs (snd (MamboSrc.mysqlWorker w (to_src_configuration config)
                     (to_src_command cmd)))
  = error_logs (snd (Mambo.mysqlWorker w config cmd)).
Proof.
  unfold MamboSrc.mysqlWorker, Mambo.mysqlWorker, sql_open.
  change (MamboSrc.mysqlUriBuilder (to_src_configuration config))
    with (Mambo.mysqlURIBuilder config).
  change (MamboSrc.query (to_src_command cmd)) with (Mambo.query cmd).
  change (MamboSrc.key (to_src_command cmd)) with (Mambo.key cmd).
  destruct (sql_Open w "mysql" (Mambo.mysqlURIBuilder config));
    cbn -[fmt.Sprint]; [repeat split|].
  destruct (db_Ping w); cbn -[fmt.Sprint];
    destruct (db_Prepare w (Mambo.query cmd)); cbn -[fmt.Sprint];
    try (repeat split; reflexivity);
    destruct (row_Scan w (Mambo.query cmd)); cbn -[fmt.Sprint];
    repeat split; reflexivity.
Qed.

(** ** Further properties of the configuration load *)

Section ConfigureMore.

Import ini.

(** The text fields the [config] section leaves in the configuration. *)
Lemma Mambo_section_fields st sec :
  Name sec = "config" ->
  let cfg := fst (Mambo.configure_section st sec) in
  Mambo.mysqlHost cfg = String_ (Key sec "mysql_host") /\
  Mambo.mysqlUser cfg = String_ (Key sec "mysql_user") /\
  Mambo.mysqlPass cfg = String_ (Key sec "mysql_pass") /\
  Mambo.mysqlDb cfg = String_ (Key sec "mysql_db") /\
  Mambo.statsdHost cfg = String_ (Key sec "statsd_host").
Proof.
  intros Hn. destruct st as [cfg0 cmds]. unfold Mambo.configure_section.
  rewrite Hn. cbn [String.eqb Ascii.eqb Bool.eqb negb].
  destruct (Int (Key sec "mysql_port")), (Int (Key sec "stats_port")).
  cbn. repeat split; reflexivity.
Qed.

Lemma Mambo_fields file sec :
  config_section file sec ->
  let cfg := fst (fold_left Mambo.configure_section file
                    (Mambo.zero_configuration, [])) in
  Mambo.mysqlHost cfg = String_ (Key sec "mysql_host") /\
  Mambo.mysqlUser cfg = String_ (Key sec "mysql_user") /\
  Mambo.mysqlPass cfg = String_ (Key sec "mysql_pass") /\
  Mambo.mysqlDb cfg = String_ (Key sec "mysql_db") /\
  Mambo.statsdHost cfg = String_ (Key sec "statsd_host").
Proof.
  intros (pre & post & -> & Hn & Hpost). cbv zeta.
  rewrite fold_left_app. cbn [fold_left].
  rewrite Mambo_fold_other by assumption.
  now apply Mambo_section_fields.
Qed.



End ConfigureMore.

(** X12.  A file without a [config] section loads all the same and
    leaves the configuration as it was declared: every text empty and
    both ports 0, not the defaults.  In [mambo.go] and in [src/mambo.go]
    alike. *)
Theorem configure_without_config_section fs cfgfile file :
  fs cfgfile = inl file ->
  Forall (fun s => ini.Name s <> "config") file ->
  exists cmds cmds',
    Mambo.configure fs cfgfile
    = (Return (Mambo.zero_configuration, cmds), []) /\
    MamboSrc.configure fs cfgfile
    = (Return (MamboSrc.zero_configuration, cmds'), []) /\
    Mambo.mysqlPort Mambo.zero_configuration = 0 /\
    Mambo.statsdPort Mambo.zero_configuration = 0.
Proof.
  intros Hload Hno.
  rewrite (Mambo_configure_loaded _ _ _ Hload).
  rewrite (MamboSrc_configure_loaded _ _ _ Hload).
  pose proof (Mambo_fold_other file Hno (Mambo.zero_configuration, [])) as H.
  pose proof (MamboSrc_fold_other file Hno (MamboSrc.zero_configuration, []))
    as H'.
  destruct (fold_left Mambo.configure_section _ _) as [cfg cmds].
  destruct (fold_left MamboSrc.configure_section _ _) as [cfg' cmds'].
  cbn [fst] in H, H'. subst. exists cmds, cmds'. repeat split; reflexivity.
Qed.

Lemma configure_without_config_section_witness :
  exists cmds cmds',
    Mambo.configure (fs_with "mambo.cfg" cfg_no_config) "mambo.cfg"
    = (Return (Mambo.zero_configuration, cmds), []) /\
    MamboSrc.configure (fs_with "mambo.cfg" cfg_no_config) "mambo.cfg"
    = (Return (MamboSrc.zero_configuration, cmds'), []).
Proof.
  destruct (configure_without_config_section
              (fs_with "mambo.cfg" cfg_no_config) "mambo.cfg" cfg_no_config
              eq_refl) as (cmds & cmds' & H & H' & _).
  - repeat constructor; discriminate.
  - exists cmds, cmds'. split; [exact H | exact H'].
Defined.

(** X13.  The text fields of the configuration are the values the last
    [config] section gives under [mysql_host], [mysql_user],
    [mysql_pass], [mysql_db] and [statsd_host], whatever the sections
    around it hold; a key the section does not have gives the empty
    string. *)
Theorem configure_text_fields fs cfgfile file sec :
  fs cfgfile = inl file ->
  config_section file sec ->
  exists cfg cmds,
    Mambo.configure fs cfgfile = (Return (cfg, cmds), []) /\
    Mambo.mysqlHost cfg = ini.String_ (ini.Key sec "mysql_host") /\
    Mambo.mysqlUser cfg = ini.String_ (ini.Key sec "mysql_user") /\
    Mambo.mysqlPass cfg = ini.String_ (ini.Key sec "mysql_pass") /\
    Mambo.mysqlDb cfg = ini.String_ (ini.Key sec "mysql_db") /\
    Mambo.statsdHost cfg = ini.String_ (ini.Key sec "statsd_host") /\
    (forall k, absent sec k -> ini.String_ (ini.Key sec k) = "").
Proof.
  intros Hload Hsec.
  rewrite (Mambo_configure_loaded _ _ _ Hload).
  pose proof (Mambo_fields file sec Hsec) as H. cbv zeta in H.
  destruct (fold_left Mambo.configure_section _ _) as [cfg cmds].
  exists cfg, cmds. split; [reflexivity|].
  destruct H as (H1 & H2 & H3 & H4 & H5). repeat (split; [assumption|]).
  intros k Hk. unfold absent in Hk. unfold ini.Key. now rewrite Hk.
Qed.

Lemma configure_text_fields_witness :
  exists cfg cmds,
    Mambo.configure (fs_with "mambo.cfg" (cfg_with "mysql_host" "db1"))
      "mambo.cfg" = (Return (cfg, cmds), []) /\
    Mambo.mysqlHost cfg = "db1" /\ Mambo.mysqlUser cfg = "root".
Proof.
  destruct (configure_text_fields
              (fs_with "mambo.cfg" (cfg_with "mysql_host" "db1")) "mambo.cfg"
              (cfg_with "mysql_host" "db1") _ eq_refl
              (config_section_cfg_with "mysql_host" "db1"))
    as (cfg & cmds & H & H1 & H2 & _).
  exists cfg, cmds. split; [exact H|]. split; [exact H1 | exact H2].
Defined.

Lemma Mambo_mysqlURIBuilder_uri c :
  uri_contract (Mambo.mysqlUser c) (Mambo.mysqlPass c) (Mambo.mysqlHost c)
    (Mambo.mysqlDb c) (Mambo.mysqlPort c) (Mambo.mysqlURIBuilder c).
Proof.
  unfold uri_contract, Mambo.mysqlURIBuilder.
  destruct (String.eqb_spec (Mambo.mysqlHost c) "") as [E|E].
  - split; [intros _; apply uri_local | intros N; contradiction].
  - split; [intros N; contradiction | intros _; apply uri_tcp].
Qed.

(** X14.  From the file to the data source name: the name
    [mysqlWorker] opens the data base under is built from the values of
    the last [config] section, over the local socket when it gives no
    host (its port is then not used), and with the port read, or 3306
    when that is 0, when it gives one. *)
Theorem configure_data_source_name fs cfgfile file sec :
  fs cfgfile = inl file ->
  config_section file sec ->
  exists cfg cmds,
    Mambo.configure fs cfgfile = (Return (cfg, cmds), []) /\
    uri_contract
      (ini.String_ (ini.Key sec "mysql_user"))
      (ini.String_ (ini.Key sec "mysql_pass"))
      (ini.String_ (ini.Key sec "mysql_host"))
      (ini.String_ (ini.Key sec "mysql_db"))
      (if fst (ini.Int (ini.Key sec "mysql_port")) =? 0 then 3306
       else fst (ini.Int (ini.Key sec "mysql_port")))
      (Mambo.mysqlURIBuilder cfg).
Proof.
  intros Hload Hsec.
  rewrite (Mambo_configure_loaded _ _ _ Hload).
  pose proof (Mambo_fields file sec Hsec) as H. cbv zeta in H.
  pose proof (Mambo_ports file sec Hsec) as P. cbv zeta in P.
  destruct (fold_left Mambo.configure_section _ _) as [cfg cmds].
  exists cfg, cmds. split; [reflexivity|].
  cbn [fst] in H, P.
  destruct H as (H1 & H2 & H3 & H4 & _), P as (P1 & _).
  rewrite <- H1, <- H2, <- H3, <- H4, <- P1.
  apply Mambo_mysqlURIBuilder_uri.
Qed.

Lemma configure_data_source_name_witness :
  exists cfg cmds,
    Mambo.configure (fs_with "mambo.cfg" (cfg_with "mysql_host" "db1"))
      "mambo.cfg" = (Return (cfg, cmds), []) /\
    Mambo.mysqlURIBuilder cfg = "root:root123@db1:3306/information_schema".
Proof.
  destruct (configure_data_source_name
              (fs_with "mambo.cfg" (cfg_with "mysql_host" "db1")) "mambo.cfg"
              (cfg_with "mysql_host" "db1") _ eq_refl
              (config_section_cfg_with "mysql_host" "db1"))
    as (cfg & cmds & H & _ & U).
  exists cfg, cmds. split; [exact H|]. apply U. discriminate.
Defined.





(** ** Loops with effects *)

Lemma bind_Return {A B} (a : A) t (f : A -> Go B) :
  bind (Return a, t) f = (fst (f a), (t ++ snd (f a))%list).
Proof. cbn. now destruct (f a). Qed.

Lemma bind_emit {B} e (f : unit -> Go B) :
  bind (emit e) f = (fst (f tt), e :: snd (f tt)).
Proof. cbn. now destruct (f tt). Qed.

Section Loops.

Context {A : Type}.

Lemma forEach_emit (g : A -> Event) l :
  forEach l (fun x => emit (g x)) = (Return tt, map g l).
Proof.
  induction l as [|x l IH]; [reflexivity|].
  cbn [forEach]. rewrite bind_emit, IH. reflexivity.
Qed.

(** A loop whose every turn returns runs to its end. *)
Lemma forEach_all_return (f : A -> Go unit) l :
  Forall (fun x => fst (f x) = Return tt) l ->
  forEach l f = (Return tt, flat_map (fun x => snd (f x)) l).
Proof.
  induction 1 as [|x l Hx _ IH]; [reflexivity|].
  cbn [forEach flat_map]. destruct (f x) as [o t]. cbn [fst snd] in *.
  subst o. now rewrite bind_Return, IH.
Qed.

(** A loop ends at the first turn that panics. *)
Lemma forEach_panic (f : A -> Go unit) pre x post p :
  Forall (fun x => fst (f x) = Return tt) pre ->
  fst (f x) = Panic p ->
  forEach (pre ++ x :: post) f
  = (Panic p, (flat_map (fun x => snd (f x)) pre ++ snd (f x))%list).
Proof.
  intros Hpre Hx. induction Hpre as [|y pre Hy _ IH].
  - cbn. destruct (f x) as [o t]. cbn in *. now subst o.
  - cbn [app forEach flat_map]. destruct (f y) as [o t]. cbn [fst snd] in *.
    subst o. rewrite bind_Return, IH. cbn [fst snd]. now rewrite app_assoc.
Qed.

End Loops.

Lemma spawns_app t1 t2 : spawns (t1 ++ t2) = (spawns t1 ++ spawns t2)%list.
Proof. induction t1 as [|[] t1 IH]; cbn; rewrite ?IH; reflexivity. Qed.

Lemma increments_app t1 t2 :
  increments (t1 ++ t2) = (increments t1 ++ increments t2)%list.
Proof. induction t1 as [|[] t1 IH]; cbn; rewrite ?IH; reflexivity. Qed.

(** The dispatcher starts no controller. *)
Lemma Mambo_statsdSender_spawns w config msg :
  spawns (snd (Mambo.statsdSender w config msg)) = [].
Proof.
  unfold Mambo.statsdSender, statsd_newClient.
  destruct (statsd_NewClient w _ _); [reflexivity|].
  destruct (strings.Split msg ":") as [|k [|text l]];
    cbn -[strconv.ParseInt]; try reflexivity.
  destruct (strconv.ParseInt text) as [v [e|]]; cbn;
    destruct (client_Inc w k v 1%Q); reflexivity.
Qed.

Lemma spawns_forEach {A} (f : A -> Go unit) l :
  (forall x, spawns (snd (f x)) = []) ->
  spawns (snd (forEach l f)) = [].
Proof.
  intros H. induction l as [|x l IH]; [reflexivity|].
  cbn [forEach]. specialize (H x). unfold bind.
  destruct (f x) as [[[]|p|c] t]; cbn [snd] in *; try assumption.
  destruct (forEach l f) as [o t']. cbn [snd] in *.
  now rewrite spawns_app, H, IH.
Qed.

(** ** Further properties of [main] and of [controller] *)

(** [main] on a file that loads: the two notices, one controller per
    command, the third notice, then the dispatch of what arrives. *)
Lemma Mambo_main_loaded fs cfg file incoming :
  fs cfg = inl file ->
  let st := fold_left Mambo.configure_section file
              (Mambo.zero_configuration, []) in
  let d := forEach incoming
             (fun '(w, msg) => Mambo.statsdSender w (fst st) msg) in
  Mambo.main fs cfg incoming =
  (fst d,
   ([Log NOTICE "Mambo collector started";
     Log NOTICE ("Loading configuration from " ++ cfg)] ++
    map (fun c => Spawn (Mambo.key c) (Mambo.query c) (Mambo.freq c)) (snd st) ++
    Log NOTICE "Data collector running" :: snd d)%list).
Proof.
  intros Hload. cbv zeta. unfold Mambo.main.
  rewrite (Mambo_configure_loaded _ _ _ Hload).
  destruct (fold_left Mambo.configure_section _ _) as [config cmds].
  rewrite !bind_emit. unfold ret. rewrite bind_Return.
  rewrite forEach_emit, bind_Return, bind_emit. reflexivity.
Qed.

(** X17.  On a file that loads, [main] starts exactly one controller for
    every section other than [DEFAULT] and [config], in file order, with
    the key, query and interval read from it, whatever arrives on the
    channel afterwards. *)
Theorem main_starts_controllers fs cfg file incoming :
  fs cfg = inl file ->
  spawns (snd (Mambo.main fs cfg incoming))
  = map spawn_of (filter is_probe_section file).
Proof.
  intros Hload. rewrite (Mambo_main_loaded _ _ _ _ Hload). cbn [snd].
  cbn [app spawns]. rewrite spawns_app. cbn [spawns].
  rewrite spawns_forEach
    by (intros [w msg]; apply Mambo_statsdSender_spawns).
  rewrite app_nil_r.
  rewrite (surjective_pairing (fold_left _ _ _)), Mambo_fold_commands.
  cbn [snd app]. induction (filter is_probe_section file) as [|s l IH];
    [reflexivity|]. cbn. now rewrite IH.
Qed.

Lemma main_starts_controllers_witness :
  spawns (snd (Mambo.main (fs_with "mambo.cfg" readme_cfg) "mambo.cfg"
                 [(statsd_ok, "q1")]))
  = [("mysql.server.query1", "SELECT 1", 1000);
     ("mysql.server.query2", "SELECT 2", 500);
     ("mysql.server.query3", "SELECT 3", 3000)].
Proof.
  exact (main_starts_controllers (fs_with "mambo.cfg" readme_cfg) "mambo.cfg"
           readme_cfg [(statsd_ok, "q1")] eq_refl).
Defined.

(** A well-formed message with a client at hand: one increment. *)
Lemma Mambo_statsdSender_well_formed w config name text :
  client_ok w ->
  occurs ":" name = false ->
  snd (strconv.ParseInt text) = None ->
  fst (Mambo.statsdSender w config (message name text)) = Return tt /\
  increments (snd (Mambo.statsdSender w config (message name text)))
  = [(name, fst (strconv.ParseInt text), 1%Q)].
Proof.
  intros Hc Hn Hp.
  assert (Ht : occurs ":" text = false).
  { apply (ParseInt_ok_no_colon text (fst (strconv.ParseInt text))).
    rewrite <- Hp. apply surjective_pairing. }
  rewrite (Mambo_statsdSender_split w config _ name text [] Hc)
    by (rewrite message_eq, Split_app, Split_no_sep by assumption; reflexivity).
  rewrite Hp. cbn.
  destruct (client_Inc w name _ 1%Q); split; reflexivity.
Qed.

Lemma increments_spawns (l : list Mambo.command) :
  increments
    (map (fun c => Spawn (Mambo.key c) (Mambo.query c) (Mambo.freq c)) l) = [].
Proof. induction l; [reflexivity | assumption]. Qed.

(** X18.  Well-formed messages are dispatched first in, first out: when
    the file loads and every message that arrives has a name without
    [':'], a value text that converts, and a sink that gives a client,
    [main] handles them all and the sink receives one increment per
    message, in the order of arrival. *)
Theorem main_dispatches_in_order fs cfg file
  (arrivals : list (StatsdWorld * string * string)) :
  fs cfg = inl file ->
  Forall (fun '(w, name, text) =>
            client_ok w /\ occurs ":" name = false /\
            snd (strconv.ParseInt text) = None) arrivals ->
  fst (Mambo.main fs cfg
         (map (fun '(w, name, text) => (w, message name text)) arrivals))
  = Return tt /\
  increments
    (snd (Mambo.main fs cfg
            (map (fun '(w, name, text) => (w, message name text)) arrivals)))
  = map (fun '(w, name, text) => (name, fst (strconv.ParseInt text), 1%Q))
      arrivals.
Proof.
  intros Hload Hok. rewrite (Mambo_main_loaded _ _ _ _ Hload). cbn [fst snd].
  set (config := fst (fold_left Mambo.configure_section file _)).
  rewrite increments_app. cbn [increments].
  rewrite increments_app, increments_spawns. cbn [increments app].
  induction Hok as [|[[w name] text] l (Hc & Hn & Hp) _ [IH1 IH2]];
    [split; reflexivity|].
  cbn [map forEach].
  destruct (Mambo_statsdSender_well_formed w config name text Hc Hn Hp)
    as [H1 H2].
  destruct (Mambo.statsdSender w config (message name text)) as [o t].
  cbn [fst snd] in H1, H2. subst o. rewrite bind_Return. cbn [fst snd].
  split; [exact IH1|]. now rewrite increments_app, H2, IH2.
Qed.

Lemma main_dispatches_in_order_witness :
  increments
    (snd (Mambo.main (fs_with "mambo.cfg" readme_cfg) "mambo.cfg"
            [(statsd_ok, message "q1" "1"); (statsd_ok, message "q2" "-5");
             (statsd_send_fails, message "q1" "2")]))
  = [("q1", 1, 1%Q); ("q2", -5, 1%Q); ("q1", 2, 1%Q)].
Proof.
  apply (main_dispatches_in_order (fs_with "mambo.cfg" readme_cfg) "mambo.cfg"
           readme_cfg
           [(statsd_ok, "q1", "1"); (statsd_ok, "q2", "-5");
            (statsd_send_fails, "q1", "2")] eq_refl).
  repeat constructor; intros addr; reflexivity.
Defined.

(** The ticker starts for the intervals that are positive and fit in
    nanoseconds. *)
Lemma time_NewTicker_ok freq :
  0 < freq <= 9223372036854 -> time_NewTicker freq = ret tt.
Proof.
  intros H. unfold time_NewTicker, int64.
  change (2 ^ 63) with 9223372036854775808.
  change (2 ^ 64) with 18446744073709551616.
  rewrite Z.mod_small by lia.
  destruct (Z.leb_spec (1000000 * freq + 9223372036854775808
                        - 9223372036854775808) 0); [lia | reflexivity].
Qed.

Lemma time_NewTicker_panics freq :
  - 9223372036854 <= freq <= 0 \/ 9223372036855 <= freq <= 18446744073709 ->
  time_NewTicker freq = panic "non-positive interval for NewTicker".
Proof.
  intros H. unfold time_NewTicker, int64.
  change (2 ^ 63) with 9223372036854775808.
  change (2 ^ 64) with 18446744073709551616.
  assert (E : (1000000 * freq + 9223372036854775808) mod 18446744073709551616
              - 9223372036854775808 <= 0).
  { destruct H as [H|H].
    - rewrite Z.mod_small by lia. lia.
    - rewrite <- (Z.mod_add _ (-1)) by lia. rewrite Z.mod_small by lia. lia. }
  apply Z.leb_le in E. now rewrite E.
Qed.

Lemma Mambo_controller_ticking cmd cnf ticks :
  0 < Mambo.freq cmd <= 9223372036854 ->
  Mambo.controller cmd cnf ticks =
  (fst (forEach ticks (fun w => Mambo.mysqlWorker w cnf cmd)),
   Log NOTICE ("Query loaded: " ++ Mambo.query cmd) ::
   snd (forEach ticks (fun w => Mambo.mysqlWorker w cnf cmd))).
Proof.
  intros H. unfold Mambo.controller.
  rewrite bind_emit, (time_NewTicker_ok _ H). unfold ret.
  now rewrite bind_Return.
Qed.

Lemma sent_ticks cnf cmd ticks :
  Forall (fun w => db_ok w (Mambo.mysqlURIBuilder cnf) (Mambo.query cmd)) ticks ->
  Forall (fun w => fst (Mambo.mysqlWorker w cnf cmd) = Return tt) ticks /\
  sent (flat_map (fun w => snd (Mambo.mysqlWorker w cnf cmd)) ticks)
  = map (fun w => Mambo.key cmd ++ ":" ++ scalar_or_empty w (Mambo.query cmd))
      ticks.
Proof.
  induction 1 as [|w ticks Hw _ [IH1 IH2]]; [split; [constructor | reflexivity]|].
  cbn [flat_map map]. rewrite sent_app, IH2.
  pose proof (Mambo_mysqlWorker_run _ _ _ Hw) as E.
  split; [constructor; [now rewrite E | exact IH1]|].
  rewrite E. cbn [snd].
  rewrite !sent_app, sent_log_of, message_eq.
  destruct (row_Scan w (Mambo.query cmd)); reflexivity.
Qed.

(** X19.  A controller whose interval is positive (and at most
    9223372036854 ms, so that it fits in nanoseconds) runs the query
    once per tick, one tick after the other: as long as the data base
    opens and prepares, it sends one message per tick, in tick order. *)
Theorem controller_sends_every_tick cmd cnf ticks :
  0 < Mambo.freq cmd <= 9223372036854 ->
  Forall (fun w => db_ok w (Mambo.mysqlURIBuilder cnf) (Mambo.query cmd)) ticks ->
  fst (Mambo.controller cmd cnf ticks) = Return tt /\
  sent (snd (Mambo.controller cmd cnf ticks))
  = map (fun w => Mambo.key cmd ++ ":" ++ scalar_or_empty w (Mambo.query cmd))
      ticks.
Proof.
  intros Hf Hdb. destruct (sent_ticks cnf cmd ticks Hdb) as [Hr Hs].
  rewrite (Mambo_controller_ticking _ _ _ Hf).
  rewrite (forEach_all_return _ _ Hr). cbn [fst snd sent].
  split; [reflexivity | exact Hs].
Qed.

Lemma controller_sends_every_tick_witness :
  sent (snd (Mambo.controller query1 local_configuration
               [sql_ok "1"; sql_no_rows; sql_ok "3"]))
  = ["mysql.server.query1:1"; "mysql.server.query1:"; "mysql.server.query1:3"].
Proof.
  apply (controller_sends_every_tick query1 local_configuration
           [sql_ok "1"; sql_no_rows; sql_ok "3"]).
  - cbn. lia.
  - repeat constructor.
Defined.

(** X20.  A tick on which the data base does not open, or does not
    prepare the statement, ends the controller in a panic: the ticks
    before it have sent their messages, the ticks after it never run. *)
Theorem controller_stops_at_panic cmd cnf pre w post e :
  0 < Mambo.freq cmd <= 9223372036854 ->
  Forall (fun w => db_ok w (Mambo.mysqlURIBuilder cnf) (Mambo.query cmd)) pre ->
  sql_Open w "mysql" (Mambo.mysqlURIBuilder cnf) = Some e \/
  (sql_Open w "mysql" (Mambo.mysqlURIBuilder cnf) = None /\
   db_Prepare w (Mambo.query cmd) = Some e) ->
  fst (Mambo.controller cmd cnf (pre ++ w :: post)) = Panic nil_deref /\
  sent (snd (Mambo.controller cmd cnf (pre ++ w :: post)))
  = map (fun w => Mambo.key cmd ++ ":" ++ scalar_or_empty w (Mambo.query cmd))
      pre.
Proof.
  intros Hf Hdb Hw. destruct (sent_ticks cnf cmd pre Hdb) as [Hr Hs].
  rewrite (Mambo_controller_ticking _ _ _ Hf).
  assert (Hp : fst (Mambo.mysqlWorker w cnf cmd) = Panic nil_deref /\
               sent (snd (Mambo.mysqlWorker w cnf cmd)) = []).
  { destruct Hw as [Ho|[Ho Hq]].
    - now rewrite (Mambo_mysqlWorker_open_error _ _ _ _ Ho).
    - rewrite (Mambo_mysqlWorker_no_statement _ _ _ _ Ho Hq). cbn [fst snd].
      now rewrite sent_app, sent_log_of. }
  destruct Hp as [Hp1 Hp2].
  rewrite (forEach_panic _ pre w post nil_deref Hr Hp1). cbn [fst snd sent].
  split; [reflexivity|]. now rewrite sent_app, Hs, Hp2, app_nil_r.
Qed.

Lemma controller_stops_at_panic_witness :
  fst (Mambo.controller query1 local_configuration
         [sql_ok "1"; sql_down; sql_ok "3"]) = Panic nil_deref /\
  sent (snd (Mambo.controller query1 local_configuration
               [sql_ok "1"; sql_down; sql_ok "3"]))
  = ["mysql.server.query1:1"].
Proof.
  apply (controller_stops_at_panic query1 local_configuration
           [sql_ok "1"] sql_down [sql_ok "3"]
           (ExtError "dial tcp: connection refused")).
  - cbn. lia.
  - repeat constructor.
  - left. reflexivity.
Defined.

(** X21.  An interval that is 0 or negative, or so large that its
    nanoseconds overflow 64 bits into a negative number, makes the
    controller panic at the ticker: the query is logged as loaded and
    never run. *)
Theorem controller_rejects_interval cmd cnf ticks :
  - 9223372036854 <= Mambo.freq cmd <= 0 \/
  9223372036855 <= Mambo.freq cmd <= 18446744073709 ->
  Mambo.controller cmd cnf ticks
  = (Panic "non-positive interval for NewTicker",
     [Log NOTICE ("Query loaded: " ++ Mambo.query cmd)]).
Proof.
  intros H. unfold Mambo.controller.
  rewrite bind_emit, (time_NewTicker_panics _ H). reflexivity.
Qed.

Lemma controller_rejects_interval_witness :
  Mambo.controller
    {| Mambo.key := "q"; Mambo.query := "SELECT 1";
       Mambo.freq := 9223372036855 |} local_configuration [sql_ok "1"]
  = (Panic "non-positive interval for NewTicker",
     [Log NOTICE "Query loaded: SELECT 1"]).
Proof.
  apply (controller_rejects_interval
           {| Mambo.key := "q"; Mambo.query := "SELECT 1";
              Mambo.freq := 9223372036855 |} local_configuration [sql_ok "1"]).
  right. cbn. lia.
Defined.

(** X22.  From the file to the controller: a section for which the
    library finds no [freq], in it or in a parent section, or one that
    is not the text of an integer in base 0, loads as a command of
    interval 0, and the controller started with it panics before its
    first tick. *)
Theorem probe_without_freq_panics s cnf ticks :
  absent s "freq" \/ invalid_syntax s "freq" ->
  Mambo.freq (probe_of s) = 0 /\
  fst (Mambo.controller (probe_of s) cnf ticks)
  = Panic "non-positive interval for NewTicker" /\
  sent (snd (Mambo.controller (probe_of s) cnf ticks)) = [].
Proof.
  intros H.
  assert (Hz : Mambo.freq (probe_of s) = 0).
  { cbn. unfold probe_freq.
    destruct H; [now apply Int_absent | now apply Int_invalid_syntax]. }
  split; [exact Hz|]. unfold Mambo.controller.
  rewrite bind_emit, Hz. split; reflexivity.
Qed.

Lemma probe_without_freq_panics_witness :
  fst (Mambo.controller
         (probe_of {| ini.Name := "query1";
                      ini.keys := [("key", "q1"); ("query", "SELECT 1")] |})
         local_configuration [sql_ok "1"])
  = Panic "non-positive interval for NewTicker".
Proof.
  apply (probe_without_freq_panics
           {| ini.Name := "query1";
              ini.keys := [("key", "q1"); ("query", "SELECT 1")] |}
           local_configuration [sql_ok "1"]).
  left. reflexivity.
Defined.

(** X23.  The dispatcher of [src/mambo.go] ends as the one of
    [mambo.go] does and sends the same increments to the sink, for the
    same configuration, message and sink. *)
Theorem statsdSender_same_in_both w config msg :
  fst (MamboSrc.statsdSender w (to_src_configuration config) msg)
  = fst (Mambo.statsdSender w config msg) /\
  increments (snd (MamboSrc.statsdSender w (to_src_configuration config) msg))
  = increments (snd (Mambo.statsdSender w config msg)).
Proof.
  unfold MamboSrc.statsdSender, Mambo.statsdSender, statsd_newClient.
  change (MamboSrc.statsdUriBuilder (to_src_configuration config))
    with (Mambo.statsdURIBuilder config).
  destruct (statsd_NewClient w _ _); [split; reflexivity|].
  destruct (strings.Split msg ":") as [|k [|text l]];
    cbn -[strconv.ParseInt]; try (split; reflexivity).
  destruct (strconv.ParseInt text) as [v [e|]]; cbn;
    destruct (client_Inc w k v 1%Q); split; reflexivity.
Qed.

(** X24.  The dispatch ends at the first message without a [':']: the
    well-formed messages before it have reached the sink, in order, and
    nothing that arrives after it is handled. *)
Theorem main_stops_at_bad_message fs cfg file
  (arrivals : list (StatsdWorld * string * string)) w msg later :
  fs cfg = inl file ->
  Forall (fun '(w, name, text) =>
            client_ok w /\ occurs ":" name = false /\
            snd (strconv.ParseInt text) = None) arrivals ->
  client_ok w ->
  occurs ":" msg = false ->
  fst (Mambo.main fs cfg
         (map (fun '(w, name, text) => (w, message name text)) arrivals
          ++ (w, msg) :: later))
  = Panic "runtime error: index out of range" /\
  increments
    (snd (Mambo.main fs cfg
            (map (fun '(w, name, text) => (w, message name text)) arrivals
             ++ (w, msg) :: later)))
  = map (fun '(w, name, text) => (name, fst (strconv.ParseInt text), 1%Q))
      arrivals.
Proof.
  intros Hload Hok Hc Hm. rewrite (Mambo_main_loaded _ _ _ _ Hload).
  cbn [fst snd].
  set (config := fst (fold_left Mambo.configure_section file _)).
  rewrite increments_app. cbn [increments].
  rewrite increments_app, increments_spawns. cbn [increments app].
  induction Hok as [|[[w0 name] text] l (Hc0 & Hn & Hp) _ [IH1 IH2]].
  - cbn [map app forEach].
    rewrite (Mambo_statsdSender_no_separator w config msg (Hc _) Hm).
    split; reflexivity.
  - cbn [map app forEach].
    destruct (Mambo_statsdSender_well_formed w0 config name text Hc0 Hn Hp)
      as [H1 H2].
    destruct (Mambo.statsdSender w0 config (message name text)) as [o t].
    cbn [fst snd] in H1, H2. subst o. rewrite bind_Return. cbn [fst snd].
    split; [exact IH1|]. now rewrite increments_app, H2, IH2.
Qed.

Lemma main_stops_at_bad_message_witness :
  increments
    (snd (Mambo.main (fs_with "mambo.cfg" readme_cfg) "mambo.cfg"
            [(statsd_ok, message "q1" "1"); (statsd_ok, "q2");
             (statsd_ok, message "q3" "3")]))
  = [("q1", 1, 1%Q)].
Proof.
  apply (main_stops_at_bad_message (fs_with "mambo.cfg" readme_cfg) "mambo.cfg"
           readme_cfg [(statsd_ok, "q1", "1")] statsd_ok "q2"
           [(statsd_ok, message "q3" "3")] eq_refl).
  - repeat constructor; intros addr; reflexivity.
  - intros addr. reflexivity.
  - reflexivity.
Defined.

(** ** The reads of the library on some files *)

(** Ports and intervals are read in base 0: [0x1F] is 31, [010] is 8,
    [1_000] is 1000. *)
Lemma configure_reads_base_0 :
  exists cfg cmds cfg' cmds',
    Mambo.configure (fs_with "mambo.cfg" (cfg_with "mysql_port" "0x1F"))
      "mambo.cfg" = (Return (cfg, cmds), []) /\
    MamboSrc.configure (fs_with "mambo.cfg" (cfg_with "mysql_port" "010"))
      "mambo.cfg" = (Return (cfg', cmds'), []) /\
    Mambo.mysqlPort cfg = 31 /\ MamboSrc.mysql_port cfg' = 8 /\
    fst (ini.Int {| ini.value := "1_000" |}) = 1000 /\
    Mambo.freq (probe_of (readme_query "q" "k" "SELECT 1" "0x10")) = 16.
Proof. eexists _, _, _, _. repeat split; reflexivity. Qed.

(** A child section gives a command with what its parent section
    holds. *)
Lemma configure_child_section :
  exists cfg,
    Mambo.configure (fs_with "mambo.cfg" cfg_child_section) "mambo.cfg"
    = (Return (cfg,
               [ {| Mambo.key := "k"; Mambo.query := "SELECT 1";
                    Mambo.freq := 1000 |};
                 {| Mambo.key := "k"; Mambo.query := "SELECT 2";
                    Mambo.freq := 1000 |} ]), []).
Proof. eexists. reflexivity. Qed.
